(** * MAGSplitter: the input loaders of [magsplitter/input_to_df.py]

    A shallow embedding of the PF-format block parser
    ([convert_rxn_row_list_format], [convert_pl_input_to_rxn_df]), of the
    contig-bin loader ([convert_contig_mag_map_to_df]) and of the
    duplicate-ORF loader ([convert_duplicate_orf_map_to_list]), followed by
    the properties of these functions.

    Conventions of the embedding.
    - A Python [str] is a [string]; a character is a code point below 256.
    - A Python [int] used as a list or string index is a [nat]: every index
      of the source starts at 0 or 1 and only grows.
    - A call that may raise returns an [outcome]; the [while] loops run on
      fuel, and each entry point supplies enough of it (see the
      [*_has_fuel] lemmas). *)

From Stdlib Require Import String Ascii List Arith Bool Lia.
Import ListNotations.

Local Open Scope string_scope.
Local Open Scope list_scope.

(* ================================================================== *)
(** ** Python exceptions and the outcome of a call                     *)
(* ================================================================== *)

Inductive exn : Type :=
| IndexError
| KeyError
| AttributeError
| ValueError
| FileNotFoundError
| EmptyDataError
| ParserError.

Inductive outcome (A : Type) : Type :=
| Return (a : A)
| Raise (e : exn)
| OutOfFuel.

Arguments Return {A} a.
Arguments Raise {A} e.
Arguments OutOfFuel {A}.

Definition bind {A B : Type} (m : outcome A) (k : A -> outcome B) : outcome B :=
  match m with
  | Return a => k a
  | Raise e => Raise e
  | OutOfFuel => OutOfFuel
  end.

Notation "x <- m ;; k" := (bind m (fun x => k))
  (at level 61, m at next level, right associativity).


Definition raises {A : Type} (m : outcome A) : bool :=
  match m with Raise _ => true | _ => false end.

(* ================================================================== *)
(** ** Strings                                                         *)
(* ================================================================== *)

Definition tab : ascii := ascii_of_nat 9.
Definition newline : ascii := ascii_of_nat 10.
Definition carriage_return : ascii := ascii_of_nat 13.

(** The one-character string holding a tab: Python's ['\t']. *)
Definition TAB : string := String tab EmptyString.

(** [str.isspace] on one character, for code points below 256. *)
Definition isspace (c : ascii) : bool :=
  let n := nat_of_ascii c in
  (((9 <=? n) && (n <=? 13)) || ((28 <=? n) && (n <=? 32))
   || (n =? 133) || (n =? 160))%nat.

(** [s.rstrip()]: drop the trailing run of whitespace. *)
Fixpoint rstrip (s : string) : string :=
  match s with
  | EmptyString => EmptyString
  | String c r =>
      match rstrip r with
      | EmptyString => if isspace c then EmptyString else String c EmptyString
      | r' => String c r'
      end
  end.

(** ['\t' in s]. *)
Fixpoint contains_tab (s : string) : bool :=
  match s with
  | EmptyString => false
  | String c r => Ascii.eqb c tab || contains_tab r
  end.

(** [s.split('\t')]: the fields between tabs; never the empty list. *)
Fixpoint split_tab (s : string) : list string :=
  match s with
  | EmptyString => [EmptyString]
  | String c r =>
      if Ascii.eqb c tab then EmptyString :: split_tab r
      else match split_tab r with
           | h :: t => String c h :: t
           | [] => [String c EmptyString]
           end
  end.

(** [s[:n]]. *)
Definition prefix_to (n : nat) (s : string) : string := substring 0 n s.

(* ================================================================== *)
(** ** Files                                                           *)
(* ================================================================== *)

(** A file system: the text of each file that exists. *)
Definition filesystem : Type := string -> option string.

(** Text mode reads with universal newlines: [\r\n] and a lone [\r] are
    handed to the program as [\n]. *)
Fixpoint universal_newlines (s : string) : string :=
  match s with
  | EmptyString => EmptyString
  | String c r =>
      if Ascii.eqb c carriage_return then
        match r with
        | String c' r' =>
            if Ascii.eqb c' newline then String newline (universal_newlines r')
            else String newline (universal_newlines r)
        | EmptyString => String newline EmptyString
        end
      else String c (universal_newlines r)
  end.

(** [for line in f]: the lines of a text, each with its newline; the last
    one has none when the text does not end in one. *)
Fixpoint iter_lines (s : string) : list string :=
  match s with
  | EmptyString => []
  | String c r =>
      if Ascii.eqb c newline then String c EmptyString :: iter_lines r
      else match iter_lines r with
           | h :: t => String c h :: t
           | [] => [String c EmptyString]
           end
  end.

(** [open(path)] followed by the iteration over its lines. *)
Definition open_lines (fs : filesystem) (path : string) : outcome (list string) :=
  match fs path with
  | None => Raise FileNotFoundError
  | Some text => Return (iter_lines (universal_newlines text))
  end.

(* ================================================================== *)
(** ** [convert_rxn_row_list_format]                                   *)
(* ================================================================== *)

(** The loop [while not rxn_row[end_idx] == '\t': end_idx += 1].
    [rxn_row[end_idx]] raises [IndexError] past the end of the string. *)
Fixpoint scan_tab (fuel : nat) (rxn_row : string) (end_idx : nat) : outcome nat :=
  match String.get end_idx rxn_row with
  | None => Raise IndexError
  | Some c =>
      if Ascii.eqb c tab then Return end_idx
      else match fuel with
           | O => OutOfFuel
           | S fuel' => scan_tab fuel' rxn_row (S end_idx)
           end
  end.

(** The two-element list [[rxn_row[:end_idx], rxn_row]] as a pair. *)
Definition convert_rxn_row_list_format (rxn_row : string) : outcome (string * string) :=
  end_idx <- scan_tab (String.length rxn_row) rxn_row 1 ;;
  Return (prefix_to end_idx rxn_row, rxn_row).

(* ================================================================== *)
(** ** Python values, dictionaries and lists                           *)
(* ================================================================== *)

(** The values a reaction record holds: a line, or a list of lines. *)
Inductive pyval : Type :=
| PyStr (s : string)
| PyList (l : list string).

(** A [dict] with [str] keys: the keys in insertion order, each once. *)
Definition dict : Type := list (string * pyval).

Fixpoint dict_get (d : dict) (k : string) : option pyval :=
  match d with
  | [] => None
  | (k', v) :: r => if String.eqb k' k then Some v else dict_get r k
  end.

(** [d[k] = v]: a key already there keeps its place, a new one goes last. *)
Fixpoint dict_set (d : dict) (k : string) (v : pyval) : dict :=
  match d with
  | [] => [(k, v)]
  | (k', v') :: r =>
      if String.eqb k' k then (k', v) :: r else (k', v') :: dict_set r k v
  end.

Definition dict_keys (d : dict) : list string := map fst d.

(** [d[k].append(x)]: [d[k]] raises [KeyError] on a missing key, and a
    [str] has no [append]. The list is changed in place, so the dictionary
    sees the longer list. *)
Definition dict_append (d : dict) (k x : string) : outcome dict :=
  match dict_get d k with
  | None => Raise KeyError
  | Some (PyStr _) => Raise AttributeError
  | Some (PyList l) => Return (dict_set d k (PyList (l ++ [x])))
  end.

(** [l[i] = x] on a list; [IndexError] out of range. *)
Fixpoint list_set {A : Type} (l : list A) (i : nat) (x : A) : outcome (list A) :=
  match l, i with
  | [], _ => Raise IndexError
  | _ :: t, O => Return (x :: t)
  | h :: t, S i' => t' <- list_set t i' x ;; Return (h :: t')
  end.

(** [l[i]] on a list; [IndexError] out of range. *)
Definition list_get {A : Type} (l : list A) (i : nat) : outcome A :=
  match nth_error l i with
  | Some x => Return x
  | None => Raise IndexError
  end.

(** [for i in range(n): s = body(i, s)], the range given as its indices. *)
Fixpoint for_range {S : Type} (idxs : list nat) (body : nat -> S -> outcome S)
    (s : S) : outcome S :=
  match idxs with
  | [] => Return s
  | i :: rest => s' <- body i s ;; for_range rest body s'
  end.

(* ================================================================== *)
(** ** Data frames                                                     *)
(* ================================================================== *)

(** A column label: a position (what the reader gives a table without a
    header) or a name. *)
Inductive label : Type :=
| LPos (n : nat)
| LName (s : string).

Definition label_eqb (a b : label) : bool :=
  match a, b with
  | LPos n, LPos m => Nat.eqb n m
  | LName s, LName t => String.eqb s t
  | _, _ => false
  end.

(** A cell: a value, or [None] for the missing value (NaN). *)
Definition cell : Type := option pyval.

Record DataFrame : Type := mkDataFrame {
  columns : list label;
  rows : list (list cell)
}.

(** The keys of a list of dictionaries, in order of first appearance. *)
Definition add_key (acc : list string) (k : string) : list string :=
  if existsb (String.eqb k) acc then acc else acc ++ [k].

Definition union_keys (recs : list dict) : list string :=
  fold_left (fun acc d => fold_left add_key (dict_keys d) acc) recs [].

(** [pd.DataFrame(recs)] for a list of dictionaries: one column per key,
    one row per dictionary, NaN where a dictionary lacks the key. *)
Definition frame_of_records (recs : list dict) : DataFrame :=
  let keys := union_keys recs in
  mkDataFrame (map LName keys) (map (fun d => map (dict_get d) keys) recs).

(** [pd.DataFrame(columns=names)]: the named columns and no row. *)
Definition empty_frame (names : list string) : DataFrame :=
  mkDataFrame (map LName names) [].

(** [df.rename(columns=mapping)]: labels that are keys of the mapping are
    replaced, the others stay. *)
Fixpoint rename_label (mapping : list (string * string)) (l : label) : label :=
  match mapping with
  | [] => l
  | (old, new) :: rest =>
      if label_eqb l (LName old) then LName new else rename_label rest l
  end.

Definition rename_columns (mapping : list (string * string)) (df : DataFrame)
    : DataFrame :=
  mkDataFrame (map (rename_label mapping) (columns df)) (rows df).

(** [df.columns = names]: [ValueError] unless there is one name per column. *)
Definition set_columns (df : DataFrame) (names : list string) : outcome DataFrame :=
  if Nat.eqb (List.length names) (List.length (columns df))
  then Return (mkDataFrame (map LName names) (rows df))
  else Raise ValueError.

(** The positions of the columns labelled [l]. *)
Fixpoint positions_from (i : nat) (cols : list label) (l : label) : list nat :=
  match cols with
  | [] => []
  | c :: rest =>
      if label_eqb c l then i :: positions_from (S i) rest l
      else positions_from (S i) rest l
  end.

(** [df[names]]: the named columns in the order asked; [KeyError] when a
    name labels no column. *)
Definition select_columns (df : DataFrame) (names : list string) : outcome DataFrame :=
  if forallb (fun n => existsb (label_eqb (LName n)) (columns df)) names then
    let idxs := flat_map (fun n => positions_from 0 (columns df) (LName n)) names in
    Return (mkDataFrame
              (map (fun i => nth i (columns df) (LPos i)) idxs)
              (map (fun r => map (fun i => nth i r None) idxs) (rows df)))
  else Raise KeyError.

(** The cells of row [i] under the columns labelled [name]. *)
Definition cells_at (df : DataFrame) (i : nat) (name : string) : list cell :=
  match nth_error (rows df) i with
  | None => []
  | Some r => map (fun j => nth j r None) (positions_from 0 (columns df) (LName name))
  end.

Definition is_str (c : cell) : bool :=
  match c with Some (PyStr _) => true | _ => false end.

Definition is_present (c : cell) : bool :=
  match c with Some _ => true | None => false end.

(** Row [i] has a column [name] holding a string. *)
Definition has_str_field (df : DataFrame) (i : nat) (name : string) : bool :=
  existsb is_str (cells_at df i name).

(** Row [i] has a column [name] holding a value (not NaN). *)
Definition has_field (df : DataFrame) (i : nat) (name : string) : bool :=
  existsb is_present (cells_at df i name).

(* ================================================================== *)
(** ** [convert_pl_input_to_rxn_df]                                    *)
(* ================================================================== *)

(** [temp_rxn = {'ec': [], 'metacyc': []}]. *)
Definition temp_rxn_init : dict := [("ec", PyList []); ("metacyc", PyList [])].

(** The body of the inner loop, lines 41 to 49: one line of a block. *)
Definition rxn_entry (temp_rxn : dict) (line : string) : outcome dict :=
  entry_list_format <- convert_rxn_row_list_format line ;;
  if String.eqb (fst entry_list_format) "EC" then
    dict_append temp_rxn "ec" (snd entry_list_format)
  else if String.eqb (fst entry_list_format) "METACYC" then
    dict_append temp_rxn "metacyc" (snd entry_list_format)
  else
    Return (dict_set temp_rxn (fst entry_list_format)
                     (PyStr (snd entry_list_format))).

(** The inner loop [while pl_lines[end_idx] != "//"]: it returns the index
    of the terminator and the record; [pl_lines[end_idx]] raises
    [IndexError] past the last line. *)
Fixpoint block_loop (fuel : nat) (pl_lines : list string) (end_idx : nat)
    (temp_rxn : dict) : outcome (nat * dict) :=
  line <- list_get pl_lines end_idx ;;
  if String.eqb line "//" then Return (end_idx, temp_rxn)
  else match fuel with
       | O => OutOfFuel
       | S fuel' =>
           temp_rxn' <- rxn_entry temp_rxn line ;;
           block_loop fuel' pl_lines (S end_idx) temp_rxn'
       end.

(** The outer loop [while start_idx < len(pl_lines)]. *)
Fixpoint rxn_loop (fuel : nat) (pl_lines : list string) (start_idx : nat)
    (rxn_acc : list dict) : outcome (list dict) :=
  if Nat.ltb start_idx (List.length pl_lines) then
    match fuel with
    | O => OutOfFuel
    | S fuel' =>
        r <- block_loop (List.length pl_lines) pl_lines start_idx temp_rxn_init ;;
        let '(end_idx, temp_rxn) := r in
        rxn_loop fuel' pl_lines (start_idx + (end_idx + 1 - start_idx))
                 (rxn_acc ++ [temp_rxn])
    end
  else Return rxn_acc.

(** The two loops on the stripped lines of the file: [rxn_acc]. *)
Definition parse_pl_lines (pl_lines : list string) : outcome (list dict) :=
  rxn_loop (List.length pl_lines) pl_lines 0 [].

(** The renaming of the last statement. *)
Definition pf_column_names : list (string * string) :=
  [("ID", "ORF_ID"); ("PRODUCT-TYPE", "PRODUCT_TYPE")].

Definition convert_pl_input_to_rxn_df (fs : filesystem) (pl : string)
    : outcome DataFrame :=
  lines <- open_lines fs pl ;;
  let pl_lines := map rstrip lines in
  rxn_acc <- parse_pl_lines pl_lines ;;
  let df_pf := frame_of_records rxn_acc in
  Return (rename_columns pf_column_names df_pf).

(* ================================================================== *)
(** ** [convert_contig_mag_map_to_df]                                  *)
(* ================================================================== *)

Section ContigMagMap.

(** [pd.read_csv(path, sep='\t', header=None)] belongs to pandas, not to
    this repository: the loader is written over any reader. *)
Variable read_csv : string -> outcome DataFrame.

(** A bare [except:] catches whatever the reader raises; the two statements
    after it stand outside the [try]. *)
Definition convert_contig_mag_map_to_df (contig_mag_map : string) : outcome DataFrame :=
  df <- match read_csv contig_mag_map with
        | Return df => Return df
        | Raise _ => Return (empty_frame ["CONTIG_ID"; "BIN_ID"])
        | OutOfFuel => OutOfFuel
        end ;;
  df <- set_columns df ["CONTIG_ID"; "BIN_ID"] ;;
  select_columns df ["BIN_ID"; "CONTIG_ID"].

End ContigMagMap.

(* ================================================================== *)
(** ** [convert_contig_contig_map_to_df]                               *)
(* ================================================================== *)

Section ContigContigMap.

(** The same reader of pandas; the call stands in no [try], so what the
    reader raises reaches the caller. *)
Variable read_csv : string -> outcome DataFrame.

Definition convert_contig_contig_map_to_df (contig_map : string) : outcome DataFrame :=
  df <- read_csv contig_map ;;
  df <- set_columns df ["CONTIG_ID"; "CONTIG_ORIG_ID"; "CONT_LEN"] ;;
  select_columns df ["CONTIG_ID"; "CONTIG_ORIG_ID"].

End ContigContigMap.

(** The empty (BIN_ID, CONTIG_ID) relation the loader falls back to. *)
Definition empty_relation : DataFrame :=
  mkDataFrame [LName "BIN_ID"; LName "CONTIG_ID"] [].

(** A reader for tab-separated text without a header, quotes or comments,
    after pandas: blank lines are skipped, a text with no line left raises
    [EmptyDataError], the first line fixes the number of columns, a shorter
    line is filled with NaN, a longer one raises [ParserError], an empty
    field is NaN. The cells keep the text of the field. *)
Definition drop_newline (line : string) : string :=
  match line with
  | EmptyString => EmptyString
  | _ => if Ascii.eqb (match String.get (String.length line - 1) line with
                       | Some c => c | None => tab end) newline
         then prefix_to (String.length line - 1) line else line
  end.

Definition field_cell (field : string) : cell :=
  match field with
  | EmptyString => None
  | _ => Some (PyStr field)
  end.

Definition pad_row (n : nat) (fields : list string) : list cell :=
  map field_cell fields ++ repeat None (n - List.length fields).

Definition nonblank (line : string) : bool :=
  negb (String.eqb line EmptyString).

Definition read_tsv (fs : filesystem) (path : string) : outcome DataFrame :=
  lines <- open_lines fs path ;;
  let records := map split_tab (filter nonblank (map drop_newline lines)) in
  match records with
  | [] => Raise EmptyDataError
  | first :: _ =>
      let n := List.length first in
      if forallb (fun r => Nat.leb (List.length r) n) records
      then Return (mkDataFrame (map LPos (seq 0 n)) (map (pad_row n) records))
      else Raise ParserError
  end.

(* ================================================================== *)
(** ** [convert_duplicate_orf_map_to_list]                             *)
(* ================================================================== *)

(** ['ID\t']. *)
Definition ID_TAB : string := ("ID" ++ TAB)%string.

(** [orf_map[rxn_idx][orf_idx] = 'ID\t' + orf_map[rxn_idx][orf_idx]]: the
    inner list is changed in place, so the outer list sees the change. *)
Definition prefix_orf (rxn_idx orf_idx : nat) (orf_map : list (list string))
    : outcome (list (list string)) :=
  group <- list_get orf_map rxn_idx ;;
  orf <- list_get group orf_idx ;;
  group' <- list_set group orf_idx (ID_TAB ++ orf)%string ;;
  list_set orf_map rxn_idx group'.

(** The inner [for orf_idx in range(len(orf_map[rxn_idx]))]. *)
Definition prefix_group (rxn_idx : nat) (orf_map : list (list string))
    : outcome (list (list string)) :=
  group <- list_get orf_map rxn_idx ;;
  for_range (seq 0 (List.length group)) (prefix_orf rxn_idx) orf_map.

Definition convert_duplicate_orf_map_to_list (fs : filesystem)
    (duplicate_orf_map : string) : outcome (list (list string)) :=
  lines <- open_lines fs duplicate_orf_map ;;
  let orf_map := map (fun line => split_tab (rstrip line))
                     (filter contains_tab lines) in
  for_range (seq 0 (List.length orf_map)) prefix_group orf_map.

(* ================================================================== *)
(** ** Vocabulary of the statements                                    *)
(* ================================================================== *)

(** The position of the first tab of a string. *)
Fixpoint tab_index (s : string) : option nat :=
  match s with
  | EmptyString => None
  | String c r => if Ascii.eqb c tab then Some 0 else option_map S (tab_index r)
  end.

(** The line is the terminator of a block. *)
Definition is_terminator (line : string) : bool := String.eqb line "//".

(** [s.startswith(p)]. *)
Fixpoint starts_with (p s : string) : bool :=
  match p, s with
  | EmptyString, _ => true
  | String _ _, EmptyString => false
  | String a p', String b s' => Ascii.eqb a b && starts_with p' s'
  end.

(** The line starts with the key [k] followed by a tab. *)
Definition keyed (k : string) (line : string) : bool :=
  starts_with (k ++ TAB)%string line.

(** The lines of a file as the parser sees them: [pl_lines]. *)
Definition stripped_lines (text : string) : list string :=
  map rstrip (iter_lines (universal_newlines text)).

(** A PF text given by its blocks: the lines of each block, then [//]. *)
Definition pf_lines_of (blocks : list (list string)) : list string :=
  flat_map (fun body => body ++ ["//"]) blocks.

(** No line of a block body is the terminator. *)
Definition no_terminator (body : list string) : bool :=
  forallb (fun line => negb (is_terminator line)) body.

Definition well_formed_blocks (blocks : list (list string)) : bool :=
  forallb no_terminator blocks.

(** The record built from the lines of one block, in order. *)
Fixpoint build_record (temp_rxn : dict) (body : list string) : outcome dict :=
  match body with
  | [] => Return temp_rxn
  | line :: rest => t <- rxn_entry temp_rxn line ;; build_record t rest
  end.

Definition block_record (body : list string) : outcome dict :=
  build_record temp_rxn_init body.

(** What the parser does with the lines left after the last terminator:
    nothing when there is none, otherwise it reads them as a block and runs
    past the last line. *)
Definition after_blocks (trailing : list string) (rxn_acc : list dict)
    : outcome (list dict) :=
  match trailing with
  | [] => Return rxn_acc
  | _ :: _ => bind (block_record trailing) (fun _ => Raise IndexError)
  end.

(** A function that may raise, along a list; the first exception wins. *)
Fixpoint map_outcome {A B : Type} (f : A -> outcome B) (l : list A)
    : outcome (list B) :=
  match l with
  | [] => Return []
  | a :: r => b <- f a ;; bs <- map_outcome f r ;; Return (b :: bs)
  end.

(** The split of any sequence of lines into its terminated blocks and the
    lines left after the last terminator. *)
Fixpoint split_blocks (lines : list string) : list (list string) * list string :=
  match lines with
  | [] => ([], [])
  | line :: rest =>
      let '(blocks, trailing) := split_blocks rest in
      if is_terminator line then ([] :: blocks, trailing)
      else match blocks with
           | [] => ([], line :: trailing)
           | body :: blocks' => ((line :: body) :: blocks', trailing)
           end
  end.

(** The input stops before a terminator closes its last block: there is a
    last line and it is not the terminator. *)
Definition unterminated (pl_lines : list string) : bool :=
  match rev pl_lines with
  | [] => false
  | line :: _ => negb (is_terminator line)
  end.

(** The lines of a block with the key [k], in order, and the last one. *)
Definition lines_keyed (k : string) (body : list string) : list string :=
  filter (keyed k) body.

Definition last_keyed (k : string) (body : list string) : option string :=
  find (keyed k) (rev body).

(** A line the key extraction accepts with a key that is neither [ec] nor
    [metacyc]: its first character is no tab, a tab follows later. *)
Definition plain_line (line : string) : bool :=
  match line with
  | EmptyString => false
  | String c r =>
      negb (Ascii.eqb c tab) && contains_tab r
      && negb (keyed "ec" line) && negb (keyed "metacyc" line)
  end.

(** The frame the parser returns for the records [rxn_acc]. *)
Definition pf_frame (rxn_acc : list dict) : DataFrame :=
  rename_columns pf_column_names (frame_of_records rxn_acc).

(** The text is made of whitespace only. *)
Fixpoint blank (s : string) : bool :=
  match s with
  | EmptyString => true
  | String c r => isspace c && blank r
  end.

(** ['\t'.join(fields)]. *)
Fixpoint join_tab (fields : list string) : string :=
  match fields with
  | [] => EmptyString
  | [f] => f
  | f :: rest => (f ++ String tab (join_tab rest))%string
  end.

(** The number of lines that close a block. *)
Definition count_terminators (pl_lines : list string) : nat :=
  List.length (filter is_terminator pl_lines).

(** The cell holds the text [s]. *)
Definition cell_is_str (s : string) (c : cell) : bool :=
  match c with
  | Some (PyStr t) => String.eqb t s
  | _ => false
  end.

(** The groups of the duplicate-ORF loader, line by line. *)
Definition duplicate_group (line : string) : list string :=
  map (String.append ID_TAB) (split_tab (rstrip line)).

Definition duplicate_groups (lines : list string) : list (list string) :=
  map duplicate_group (filter contains_tab lines).

(** The key of a line: the text before the first tab found from the second
    character on, when there is one. *)
Definition row_key (line : string) : option string :=
  match line with
  | EmptyString => None
  | String c r =>
      match tab_index r with
      | Some j => Some (prefix_to (S j) line)
      | None => None
      end
  end.

(** The line has a tab after its first character. *)
Definition has_key (line : string) : bool :=
  match line with
  | EmptyString => false
  | String _ r => contains_tab r
  end.

(** No line carries the lower-case key [ec] or [metacyc]. *)
Definition no_lower_key (line : string) : bool :=
  negb (keyed "ec" line) && negb (keyed "metacyc" line).

(** A key the general branch of the parser stores a line under, other than
    the two field names the parser itself uses. *)
Definition ordinary_key (k : string) : bool :=
  negb (String.eqb k EmptyString) && negb (contains_tab k)
  && negb (String.eqb k "EC") && negb (String.eqb k "METACYC")
  && negb (String.eqb k "ec") && negb (String.eqb k "metacyc").

(** The first character of the line is a tab. *)
Definition leading_tab (line : string) : bool :=
  match line with
  | EmptyString => false
  | String c _ => Ascii.eqb c tab
  end.

(** A line that neither begins with a tab nor has the key [ec] or
    [metacyc]. *)
Definition well_keyed (line : string) : bool :=
  negb (leading_tab line) && no_lower_key line.

(** A line other than the terminator that contains no tab. *)
Definition tabless (line : string) : bool :=
  negb (is_terminator line) && negb (contains_tab line).

(** The two format errors, read on the lines as the parser reads them
    ([pl_lines], each line stripped of its trailing whitespace): the input
    stops before a terminator closes its last block, or a line other than
    the terminator contains no tab. *)
Definition malformed (pl_lines : list string) : bool :=
  unterminated pl_lines || existsb tabless pl_lines.

(* ================================================================== *)
(** ** Sample inputs                                                   *)
(* ================================================================== *)

Definition NL : string := String newline EmptyString.

(** A line [key<TAB>value], without its newline. *)
Definition entry (key value : string) : string := (key ++ TAB ++ value)%string.

(** The text of a file given by its lines. *)
Definition text_of (lines : list string) : string :=
  String.concat EmptyString (map (fun line => (line ++ NL)%string) lines).

(** A file system with one file. *)
Definition one_file (name text : string) : filesystem :=
  fun path => if String.eqb path name then Some text else None.

Definition sample_blocks : list (list string) :=
  [ [entry "ID" "O_1"; entry "EC" "1.1.1.1"; entry "NAME" "first";
     entry "EC" "2.7.1.1"; entry "NAME" "second"];
    [entry "ID" "O_2"; entry "PRODUCT-TYPE" "P"; entry "METACYC" "RXN-1"] ].

Definition sample_pf : string := text_of (pf_lines_of sample_blocks).


(** A terminated block where an [EC] line follows the key [ec]. *)
Definition lower_key_lines : list string :=
  [entry "ec" "x"; entry "EC" "1.1.1.1"; "//"].

(** A block without [ID] and [PRODUCT-TYPE] line. *)
Definition no_id_lines : list string := [entry "NAME" "x"; "//"].

(** Lines after the last terminator, an [EC] line after the key [ec]. *)
Definition trailing_lower_lines : list string :=
  ["//"; entry "ec" "x"; entry "EC" "1.1.1.1"].

(** A terminated block whose line has its only tab in first position. *)
Definition leading_tab_lines : list string := [(TAB ++ "xy")%string; "//"].

(** A line whose first character is a tab. *)
Definition leading_tab_line : string := (TAB ++ "x" ++ TAB ++ "y")%string.

(** A duplicate-ORF table with a line that ends with a tab. *)
Definition trailing_tab_orf_map : string :=
  text_of ["# duplicates"; ("O_5" ++ TAB)%string; ("O_2" ++ TAB ++ "O_3")%string].

(** A duplicate-ORF table whose first group starts with an ORF of
    [sample_pf]. *)
Definition sample_orf_map : string :=
  text_of [("O_1" ++ TAB ++ "O_7")%string; ("O_2" ++ TAB ++ "O_3" ++ TAB ++ "O_4")%string].

(** The PF file and the duplicate-ORF table side by side. *)
Definition sample_run : filesystem :=
  fun path => if String.eqb path "0.pf" then Some sample_pf
              else if String.eqb path "orf_map.txt" then Some sample_orf_map
              else None.

(** A PF text with a line whose value is empty. *)
Definition empty_value_pf : string :=
  text_of [entry "ID" "O_1"; ("NAME" ++ TAB)%string; "//"].

(** A contig-contig table: internal name, original name, length. *)
Definition contig_contig_table : string :=
  text_of [("c_0" ++ TAB ++ "scaffold_12" ++ TAB ++ "1500")%string;
           ("c_1" ++ TAB ++ "scaffold_40" ++ TAB ++ "820")%string].

(** A contig-bin table: contig, bin. *)
Definition contig_bin_table : string :=
  text_of [("c_0" ++ TAB ++ "bin_1")%string; ("c_1" ++ TAB ++ "bin_2")%string].

(** A contig-bin table with one column: contigs without bin. *)
Definition one_column_table : string := text_of ["contig_1"; "contig_2"].

(** A contig-bin table with a third column. *)
Definition three_column_table : string :=
  text_of [("contig_1" ++ TAB ++ "bin_1" ++ TAB ++ "1500")%string].

(* ================================================================== *)
(** ** The outcome monad                                               *)
(* ================================================================== *)

Lemma bind_return_inv {A B : Type} (m : outcome A) (k : A -> outcome B) (b : B) :
  bind m k = Return b -> exists a, m = Return a /\ k a = Return b.
Proof.
  destruct m as [a| |]; simpl; intro H; try discriminate.
  exists a; split; [reflexivity | exact H].
Qed.

Lemma map_outcome_app {A B : Type} (f : A -> outcome B) (l1 l2 : list A) :
  map_outcome f (l1 ++ l2) =
  bind (map_outcome f l1) (fun r1 =>
  bind (map_outcome f l2) (fun r2 => Return (r1 ++ r2))).
Proof.
  induction l1 as [|a l1 IH]; simpl.
  - destruct (map_outcome f l2); reflexivity.
  - destruct (f a) as [b| |]; simpl; try reflexivity.
    rewrite IH. destruct (map_outcome f l1); simpl; try reflexivity.
    destruct (map_outcome f l2); reflexivity.
Qed.

Lemma map_outcome_return {A B : Type} (f : A -> outcome B) (l : list A) (r : list B) :
  map_outcome f l = Return r -> Forall2 (fun a b => f a = Return b) l r.
Proof.
  revert r; induction l as [|a l IH]; simpl; intros r H.
  - injection H as <-. constructor.
  - destruct (f a) as [b| |] eqn:Ea; simpl in H; try discriminate.
    destruct (map_outcome f l) as [bs| |]; simpl in H; try discriminate.
    injection H as <-. constructor; [exact Ea | apply IH; reflexivity].
Qed.

(* ================================================================== *)
(** ** Strings and the key extraction                                  *)
(* ================================================================== *)

Lemma scan_tab_shift (fuel : nat) (c : ascii) (r : string) (i : nat) :
  scan_tab fuel (String c r) (S i) = bind (scan_tab fuel r i) (fun j => Return (S j)).
Proof.
  revert i; induction fuel as [|fuel IH]; intro i; simpl.
  - destruct (String.get i r) as [d|]; [|reflexivity].
    destruct (Ascii.eqb d tab); reflexivity.
  - destruct (String.get i r) as [d|]; [|reflexivity].
    destruct (Ascii.eqb d tab); [reflexivity|]. apply IH.
Qed.

Lemma scan_tab_from_start (fuel : nat) (s : string) :
  String.length s <= fuel ->
  scan_tab fuel s 0 =
  match tab_index s with Some j => Return j | None => Raise IndexError end.
Proof.
  revert fuel; induction s as [|c r IH]; intros fuel Hfuel.
  - destruct fuel; reflexivity.
  - simpl in Hfuel. destruct fuel as [|fuel]; [lia|].
    cbn [scan_tab String.get tab_index].
    destruct (Ascii.eqb c tab); [reflexivity|].
    rewrite scan_tab_shift, IH by lia.
    destruct (tab_index r); reflexivity.
Qed.

(** The key extraction in closed form: the search for the tab starts at the
    second character. *)
Lemma convert_rxn_row_list_format_eq (rxn_row : string) :
  convert_rxn_row_list_format rxn_row =
  match rxn_row with
  | EmptyString => Raise IndexError
  | String c r =>
      match tab_index r with
      | Some j => Return (prefix_to (S j) rxn_row, rxn_row)
      | None => Raise IndexError
      end
  end.
Proof.
  unfold convert_rxn_row_list_format. destruct rxn_row as [|c r].
  - reflexivity.
  - rewrite scan_tab_shift, scan_tab_from_start by (simpl; lia).
    destruct (tab_index r); reflexivity.
Qed.

Lemma convert_rxn_row_list_format_has_fuel (rxn_row : string) :
  convert_rxn_row_list_format rxn_row <> OutOfFuel.
Proof.
  rewrite convert_rxn_row_list_format_eq. destruct rxn_row as [|c r]; [discriminate|].
  destruct (tab_index r); discriminate.
Qed.

Lemma tab_index_contains (s : string) :
  contains_tab s = match tab_index s with Some _ => true | None => false end.
Proof.
  induction s as [|c r IH]; simpl; [reflexivity|].
  destruct (Ascii.eqb c tab); simpl; [reflexivity|].
  rewrite IH. destruct (tab_index r); reflexivity.
Qed.

Lemma tab_index_append (key rest : string) :
  contains_tab key = false ->
  tab_index (key ++ String tab rest) = Some (String.length key).
Proof.
  induction key as [|c k IH]; simpl; intro H.
  - reflexivity.
  - apply orb_false_iff in H as [Hc Hk]. rewrite Hc, (IH Hk). reflexivity.
Qed.

Lemma prefix_to_append (key rest : string) :
  prefix_to (String.length key) (key ++ rest) = key.
Proof.
  unfold prefix_to. induction key as [|c k IH]; simpl.
  - destruct rest; reflexivity.
  - rewrite IH. reflexivity.
Qed.

(** A line made of a key without tab, a tab and the rest: the extraction
    returns the key and the whole line, provided the key is not empty. *)
Lemma convert_rxn_row_list_format_key (key rest : string) :
  key <> EmptyString -> contains_tab key = false ->
  convert_rxn_row_list_format (key ++ String tab rest) =
  Return (key, (key ++ String tab rest)%string).
Proof.
  intros Hne Hk. rewrite convert_rxn_row_list_format_eq.
  destruct key as [|c k]; [congruence|].
  simpl in Hk. apply orb_false_iff in Hk as [Hc Hk].
  cbn [String.append]. rewrite (tab_index_append k rest Hk).
  change (String c (k ++ String tab rest)) with (String c k ++ String tab rest)%string.
  change (S (String.length k)) with (String.length (String c k)).
  rewrite prefix_to_append. reflexivity.
Qed.

Lemma tab_index_split (r : string) (j : nat) :
  tab_index r = Some j ->
  exists rest, r = (prefix_to j r ++ String tab rest)%string
               /\ contains_tab (prefix_to j r) = false.
Proof.
  revert j; induction r as [|c r IH]; simpl; intros j H; [discriminate|].
  destruct (Ascii.eqb c tab) eqn:Ec.
  - injection H as <-. apply Ascii.eqb_eq in Ec as ->.
    exists r. split; reflexivity.
  - destruct (tab_index r) as [i|]; [|discriminate]. injection H as <-.
    destruct (IH i eq_refl) as (rest & Hr & Hp).
    exists rest. unfold prefix_to in *. simpl. rewrite Ec, Hp.
    split; [f_equal; exact Hr | reflexivity].
Qed.

Lemma starts_with_split (p s : string) :
  starts_with p s = true <-> exists rest, s = (p ++ rest)%string.
Proof.
  revert s; induction p as [|a p IH]; intro s.
  - split; [intros _; exists s; reflexivity | reflexivity].
  - destruct s as [|b s]; simpl.
    + split; [discriminate | intros (rest & H); discriminate].
    + rewrite andb_true_iff, Ascii.eqb_eq, IH.
      split.
      * intros (-> & rest & ->). exists rest. reflexivity.
      * intros (rest & H). injection H as -> ->. split; [reflexivity | exists rest; reflexivity].
Qed.

Lemma append_assoc (a b c : string) :
  ((a ++ b) ++ c)%string = (a ++ (b ++ c))%string.
Proof.
  induction a as [|x a IH]; simpl; [reflexivity | rewrite IH; reflexivity].
Qed.

Lemma keyed_split (k line : string) :
  keyed k line = true <-> exists rest, line = (k ++ String tab rest)%string.
Proof.
  unfold keyed, TAB. rewrite starts_with_split.
  split; intros (rest & ->); exists rest.
  - rewrite append_assoc. reflexivity.
  - rewrite append_assoc. reflexivity.
Qed.

Lemma row_key_split (line k : string) :
  row_key line = Some k ->
  exists c k' rest, k = String c k' /\ contains_tab k' = false
                    /\ line = (k ++ String tab rest)%string.
Proof.
  unfold row_key. destruct line as [|c r]; [discriminate|].
  destruct (tab_index r) as [j|] eqn:Ej; [|discriminate].
  intro H; injection H as <-.
  destruct (tab_index_split r j Ej) as (rest & Hr & Hp).
  exists c, (prefix_to j r), rest. unfold prefix_to in *. simpl.
  repeat split; [exact Hp | f_equal; exact Hr].
Qed.

Lemma row_key_append (c : ascii) (k rest : string) :
  contains_tab k = false ->
  row_key (String c k ++ String tab rest) = Some (String c k).
Proof.
  intro Hk. unfold row_key. cbn [String.append].
  rewrite (tab_index_append k rest Hk).
  change (String c (k ++ String tab rest)) with (String c k ++ String tab rest)%string.
  change (S (String.length k)) with (String.length (String c k)).
  rewrite prefix_to_append. reflexivity.
Qed.

Lemma row_key_keyed (line k : string) :
  row_key line = Some k -> keyed k line = true.
Proof.
  intro H. destruct (row_key_split line k H) as (c & k' & rest & _ & _ & Hl).
  apply keyed_split. exists rest. exact Hl.
Qed.

(** For a key without tab the two readings of "the line has key [k]" agree. *)
Lemma keyed_row_key (line k : string) :
  k <> EmptyString -> contains_tab k = false ->
  keyed k line = true -> row_key line = Some k.
Proof.
  intros Hne Hk H. apply keyed_split in H as (rest & ->).
  destruct k as [|c k]; [congruence|].
  simpl in Hk. apply orb_false_iff in Hk as [_ Hk].
  apply row_key_append. exact Hk.
Qed.

Lemma row_key_has_key (line : string) :
  has_key line = match row_key line with Some _ => true | None => false end.
Proof.
  destruct line as [|c r]; simpl; [reflexivity|].
  rewrite tab_index_contains. destruct (tab_index r); reflexivity.
Qed.

Lemma convert_rxn_row_list_format_row_key (line : string) :
  convert_rxn_row_list_format line =
  match row_key line with
  | Some k => Return (k, line)
  | None => Raise IndexError
  end.
Proof.
  rewrite convert_rxn_row_list_format_eq. unfold row_key.
  destruct line as [|c r]; [reflexivity|]. destruct (tab_index r); reflexivity.
Qed.

(** One line of a block, by its key. *)
Lemma rxn_entry_eq (temp_rxn : dict) (line : string) :
  rxn_entry temp_rxn line =
  match row_key line with
  | None => Raise IndexError
  | Some k =>
      if String.eqb k "EC" then dict_append temp_rxn "ec" line
      else if String.eqb k "METACYC" then dict_append temp_rxn "metacyc" line
      else Return (dict_set temp_rxn k (PyStr line))
  end.
Proof.
  unfold rxn_entry. rewrite convert_rxn_row_list_format_row_key.
  destruct (row_key line); reflexivity.
Qed.

(* ================================================================== *)
(** ** Dictionaries                                                    *)
(* ================================================================== *)

Lemma dict_get_set_same (d : dict) (k : string) (v : pyval) :
  dict_get (dict_set d k v) k = Some v.
Proof.
  induction d as [|[k' v'] d IH]; simpl.
  - rewrite String.eqb_refl. reflexivity.
  - destruct (String.eqb k' k) eqn:E; simpl; rewrite E; [reflexivity | exact IH].
Qed.

Lemma dict_get_set_other (d : dict) (k k' : string) (v : pyval) :
  k <> k' -> dict_get (dict_set d k v) k' = dict_get d k'.
Proof.
  intro Hne. induction d as [|[k0 v0] d IH]; simpl.
  - destruct (String.eqb k k') eqn:E; [apply String.eqb_eq in E; congruence | reflexivity].
  - destruct (String.eqb k0 k) eqn:E; simpl.
    + apply String.eqb_eq in E as ->.
      destruct (String.eqb k k') eqn:E'; [apply String.eqb_eq in E'; congruence | reflexivity].
    + destruct (String.eqb k0 k'); [reflexivity | exact IH].
Qed.

Lemma dict_set_keeps (d : dict) (k k' : string) (v : pyval) :
  dict_get d k' <> None -> dict_get (dict_set d k v) k' <> None.
Proof.
  intro H. destruct (string_dec k k') as [<-|Hne].
  - rewrite dict_get_set_same. discriminate.
  - rewrite dict_get_set_other by exact Hne. exact H.
Qed.

Lemma dict_get_in_keys (d : dict) (k : string) (v : pyval) :
  dict_get d k = Some v -> In k (dict_keys d).
Proof.
  induction d as [|[k' v'] d IH]; simpl; [discriminate|].
  destruct (String.eqb k' k) eqn:E.
  - apply String.eqb_eq in E. intros _. left. exact E.
  - intro H. right. apply IH. exact H.
Qed.

Lemma dict_append_return (d d' : dict) (k x : string) :
  dict_append d k x = Return d' ->
  exists l, dict_get d k = Some (PyList l) /\ d' = dict_set d k (PyList (l ++ [x])).
Proof.
  unfold dict_append. destruct (dict_get d k) as [[s|l]|]; try discriminate.
  intro H; injection H as <-. exists l. split; reflexivity.
Qed.

(* ================================================================== *)
(** ** The record of one block                                         *)
(* ================================================================== *)

Lemma find_snoc {A : Type} (p : A -> bool) (l : list A) (x : A) :
  find p (l ++ [x]) =
  match find p l with
  | Some y => Some y
  | None => if p x then Some x else None
  end.
Proof.
  induction l as [|a l IH]; simpl; [reflexivity|].
  destruct (p a); [reflexivity | exact IH].
Qed.

Lemma last_keyed_cons (k line : string) (rest : list string) :
  last_keyed k (line :: rest) =
  match last_keyed k rest with
  | Some l => Some l
  | None => if keyed k line then Some line else None
  end.
Proof. unfold last_keyed. simpl. apply find_snoc. Qed.

(** Two keys without tab that head the same line are the same key. *)
Lemma row_key_not_keyed (line k k' : string) :
  row_key line = Some k -> k' <> EmptyString -> contains_tab k' = false ->
  k <> k' -> keyed k' line = false.
Proof.
  intros Hk Hne Htab Hdiff. destruct (keyed k' line) eqn:E; [|reflexivity].
  apply (keyed_row_key line k' Hne Htab) in E. congruence.
Qed.

(** No step of a block removes a field. *)
Lemma rxn_entry_keeps (t t' : dict) (line k : string) :
  rxn_entry t line = Return t' -> dict_get t k <> None -> dict_get t' k <> None.
Proof.
  rewrite rxn_entry_eq. destruct (row_key line) as [key|]; [|discriminate].
  destruct (String.eqb key "EC").
  { intros H Hk. apply dict_append_return in H as (l & _ & ->).
    apply dict_set_keeps. exact Hk. }
  destruct (String.eqb key "METACYC").
  { intros H Hk. apply dict_append_return in H as (l & _ & ->).
    apply dict_set_keeps. exact Hk. }
  intros H Hk. injection H as <-. apply dict_set_keeps. exact Hk.
Qed.

Lemma build_record_keeps (body : list string) (t t' : dict) (k : string) :
  build_record t body = Return t' -> dict_get t k <> None -> dict_get t' k <> None.
Proof.
  revert t; induction body as [|line rest IH]; simpl; intros t H Hk.
  - injection H as <-. exact Hk.
  - apply bind_return_inv in H as (t1 & H1 & H2).
    apply (IH t1 H2). apply (rxn_entry_keeps t t1 line k H1 Hk).
Qed.

(** A field holding a line keeps holding a line. *)
Lemma rxn_entry_keeps_str (t t' : dict) (line k s : string) :
  rxn_entry t line = Return t' -> dict_get t k = Some (PyStr s) ->
  exists s', dict_get t' k = Some (PyStr s').
Proof.
  rewrite rxn_entry_eq. destruct (row_key line) as [key|]; [|discriminate].
  assert (Happ : forall f, dict_append t f line = Return t' ->
                 dict_get t k = Some (PyStr s) ->
                 exists s', dict_get t' k = Some (PyStr s')).
  { intros f H Hk. apply dict_append_return in H as (l & Hl & ->).
    destruct (string_dec f k) as [->|Hne]; [congruence|].
    exists s. rewrite dict_get_set_other by exact Hne. exact Hk. }
  destruct (String.eqb key "EC"); [apply Happ|].
  destruct (String.eqb key "METACYC"); [apply Happ|].
  intros H Hk. injection H as <-.
  destruct (string_dec key k) as [->|Hne].
  - exists line. apply dict_get_set_same.
  - exists s. rewrite dict_get_set_other by exact Hne. exact Hk.
Qed.

Lemma build_record_keeps_str (body : list string) (t t' : dict) (k s : string) :
  build_record t body = Return t' -> dict_get t k = Some (PyStr s) ->
  exists s', dict_get t' k = Some (PyStr s').
Proof.
  revert t s; induction body as [|line rest IH]; simpl; intros t s H Hk.
  - injection H as <-. exists s. exact Hk.
  - apply bind_return_inv in H as (t1 & H1 & H2).
    destruct (rxn_entry_keeps_str t t1 line k s H1 Hk) as (s1 & Hs1).
    apply (IH t1 s1 H2 Hs1).
Qed.

(** A block with a line keyed [k] ends with a line under [k], for every
    key the general branch handles. *)
Lemma build_record_keyed_str (body : list string) (t t' : dict) (k : string) :
  k <> EmptyString -> contains_tab k = false -> k <> "EC" -> k <> "METACYC" ->
  existsb (keyed k) body = true ->
  build_record t body = Return t' ->
  exists s, dict_get t' k = Some (PyStr s).
Proof.
  intros Hne Htab HEC HMC. revert t; induction body as [|line rest IH];
    simpl; intros t Hex H; [discriminate|].
  apply bind_return_inv in H as (t1 & H1 & H2).
  destruct (keyed k line) eqn:Ek.
  - apply (keyed_row_key line k Hne Htab) in Ek.
    rewrite rxn_entry_eq, Ek in H1.
    destruct (String.eqb k "EC") eqn:E1; [apply String.eqb_eq in E1; congruence|].
    destruct (String.eqb k "METACYC") eqn:E2; [apply String.eqb_eq in E2; congruence|].
    injection H1 as <-.
    apply (build_record_keeps_str rest _ t' k line H2). apply dict_get_set_same.
  - simpl in Hex. apply (IH t1 Hex H2).
Qed.

Lemma ordinary_key_inv (k : string) :
  ordinary_key k = true ->
  k <> EmptyString /\ contains_tab k = false
  /\ k <> "EC" /\ k <> "METACYC" /\ k <> "ec" /\ k <> "metacyc".
Proof.
  unfold ordinary_key. rewrite !andb_true_iff, !negb_true_iff, !String.eqb_neq.
  tauto.
Qed.

(** The record of a block without the keys [ec] and [metacyc]: the two
    sequences grow in source order, every other key holds its last line, and
    the only exception is the index error of a line without key. *)
Lemma build_record_lists (body : list string) (t : dict) (e m : list string) :
  dict_get t "ec" = Some (PyList e) ->
  dict_get t "metacyc" = Some (PyList m) ->
  forallb no_lower_key body = true ->
  match build_record t body with
  | Return t' =>
      dict_get t' "ec" = Some (PyList (e ++ lines_keyed "EC" body))
      /\ dict_get t' "metacyc" = Some (PyList (m ++ lines_keyed "METACYC" body))
      /\ forall k, ordinary_key k = true ->
           dict_get t' k = match last_keyed k body with
                           | Some l => Some (PyStr l)
                           | None => dict_get t k
                           end
  | Raise x => x = IndexError /\ forallb has_key body = false
  | OutOfFuel => False
  end.
Proof.
  revert t e m; induction body as [|line rest IH]; intros t e m He Hm Hlow.
  - simpl. rewrite !app_nil_r. repeat split; assumption.
  - cbn [forallb] in Hlow. apply andb_true_iff in Hlow as [Hline Hrest].
    unfold no_lower_key in Hline.
    apply andb_true_iff in Hline as [Hec Hmc]. apply negb_true_iff in Hec, Hmc.
    cbn [build_record forallb]. rewrite rxn_entry_eq, row_key_has_key.
    destruct (row_key line) as [key|] eqn:Ekey; [|split; reflexivity].
    cbn [andb].
    assert (Hkeyed := row_key_keyed line key Ekey).
    assert (Hother : forall k', k' <> EmptyString -> contains_tab k' = false ->
                     key <> k' -> keyed k' line = false)
      by (intros k' ? ? ?; eapply row_key_not_keyed; eassumption).
    destruct (String.eqb key "EC") eqn:E1.
    { apply String.eqb_eq in E1; subst key.
      unfold dict_append. rewrite He. cbn [bind].
      specialize (IH (dict_set t "ec" (PyList (e ++ [line]))) (e ++ [line]) m).
      rewrite dict_get_set_same, dict_get_set_other in IH by discriminate.
      specialize (IH eq_refl Hm Hrest).
      destruct (build_record _ rest) as [t'| |]; [|exact IH|exact IH].
      destruct IH as (IH1 & IH2 & IH3).
      unfold lines_keyed in *. cbn [filter]. rewrite Hkeyed.
      rewrite (Hother "METACYC") by (discriminate || reflexivity).
      rewrite <- app_assoc in IH1. repeat split; [exact IH1 | exact IH2 |].
      intros k Hk. rewrite (IH3 k Hk), last_keyed_cons.
      apply ordinary_key_inv in Hk as (K1 & K2 & K3 & K4 & K5 & K6).
      rewrite (Hother k K1 K2) by congruence.
      destruct (last_keyed k rest); [reflexivity|].
      apply dict_get_set_other. congruence. }
    destruct (String.eqb key "METACYC") eqn:E2.
    { apply String.eqb_eq in E2; subst key.
      unfold dict_append. rewrite Hm. cbn [bind].
      specialize (IH (dict_set t "metacyc" (PyList (m ++ [line]))) e (m ++ [line])).
      rewrite dict_get_set_same, dict_get_set_other in IH by discriminate.
      specialize (IH He eq_refl Hrest).
      destruct (build_record _ rest) as [t'| |]; [|exact IH|exact IH].
      destruct IH as (IH1 & IH2 & IH3).
      unfold lines_keyed in *. cbn [filter]. rewrite Hkeyed.
      rewrite (Hother "EC") by (discriminate || reflexivity).
      rewrite <- app_assoc in IH2. repeat split; [exact IH1 | exact IH2 |].
      intros k Hk. rewrite (IH3 k Hk), last_keyed_cons.
      apply ordinary_key_inv in Hk as (K1 & K2 & K3 & K4 & K5 & K6).
      rewrite (Hother k K1 K2) by congruence.
      destruct (last_keyed k rest); [reflexivity|].
      apply dict_get_set_other. congruence. }
    apply String.eqb_neq in E1, E2. cbn [bind].
    assert (Nec : key <> "ec").
    { intros ->. rewrite Hkeyed in Hec. discriminate. }
    assert (Nmc : key <> "metacyc").
    { intros ->. rewrite Hkeyed in Hmc. discriminate. }
    specialize (IH (dict_set t key (PyStr line)) e m).
    rewrite !dict_get_set_other in IH by assumption.
    specialize (IH He Hm Hrest).
    destruct (build_record _ rest) as [t'| |]; [|exact IH|exact IH].
    destruct IH as (IH1 & IH2 & IH3).
    unfold lines_keyed in *. cbn [filter].
    rewrite (Hother "EC"), (Hother "METACYC") by (discriminate || reflexivity || assumption).
    repeat split; [exact IH1 | exact IH2 |].
    intros k Hk. rewrite (IH3 k Hk), last_keyed_cons.
    apply ordinary_key_inv in Hk as (K1 & K2 & K3 & K4 & K5 & K6).
    destruct (last_keyed k rest); [reflexivity|].
    destruct (string_dec key k) as [->|Hne].
    + rewrite Hkeyed. apply dict_get_set_same.
    + rewrite (Hother k K1 K2 Hne). apply dict_get_set_other. exact Hne.
Qed.

(* ================================================================== *)
(** ** The two loops of the parser                                     *)
(* ================================================================== *)

Lemma list_get_middle {A : Type} (pre post : list A) (x : A) :
  list_get (pre ++ x :: post) (List.length pre) = Return x.
Proof.
  unfold list_get. rewrite nth_error_app2 by lia.
  rewrite Nat.sub_diag. reflexivity.
Qed.

Lemma list_get_end {A : Type} (l : list A) :
  list_get l (List.length l) = Raise IndexError.
Proof.
  unfold list_get.
  destruct (nth_error l (List.length l)) eqn:E; [|reflexivity].
  assert (nth_error l (List.length l) <> None) by congruence.
  apply nth_error_Some in H. lia.
Qed.

(** The inner loop on a terminated block: it stops on the terminator with
    the record of the lines before it. *)
Lemma block_loop_body (body : list string) :
  forall (pre post pl_lines : list string) (t : dict) (fuel : nat),
  no_terminator body = true ->
  List.length body <= fuel ->
  pl_lines = pre ++ body ++ "//" :: post ->
  block_loop fuel pl_lines (List.length pre) t =
  bind (build_record t body)
       (fun r => Return (List.length pre + List.length body, r)).
Proof.
  induction body as [|line rest IH]; intros pre post pl_lines t fuel Hnt Hfuel ->.
  - simpl. rewrite Nat.add_0_r.
    destruct fuel; simpl; rewrite list_get_middle; reflexivity.
  - simpl in Hnt, Hfuel. apply andb_true_iff in Hnt as [Hline Hrest].
    destruct fuel as [|fuel]; [lia|].
    cbn [block_loop]. cbn [app]. rewrite list_get_middle. cbn [bind].
    unfold is_terminator in Hline. apply negb_true_iff in Hline. rewrite Hline.
    cbn [build_record]. destruct (rxn_entry t line) as [t1| |]; cbn [bind]; try reflexivity.
    specialize (IH (pre ++ [line]) post (pre ++ line :: rest ++ "//" :: post) t1 fuel Hrest).
    rewrite length_app in IH. cbn [List.length] in IH.
    replace (List.length pre + 1) with (S (List.length pre)) in IH by lia.
    rewrite IH; [| lia | rewrite <- app_assoc; reflexivity].
    destruct (build_record t1 rest); cbn [bind]; try reflexivity.
    cbn [List.length]. do 2 f_equal. lia.
Qed.

(** The inner loop on lines that no terminator follows: the index runs past
    the last line. *)
Lemma block_loop_trailing (body : list string) :
  forall (pre pl_lines : list string) (t : dict) (fuel : nat),
  no_terminator body = true ->
  List.length body <= fuel ->
  pl_lines = pre ++ body ->
  block_loop fuel pl_lines (List.length pre) t =
  bind (build_record t body) (fun _ => Raise IndexError).
Proof.
  induction body as [|line rest IH]; intros pre pl_lines t fuel Hnt Hfuel ->.
  - rewrite app_nil_r. destruct fuel; simpl; rewrite list_get_end; reflexivity.
  - simpl in Hnt, Hfuel. apply andb_true_iff in Hnt as [Hline Hrest].
    destruct fuel as [|fuel]; [lia|].
    cbn [block_loop]. rewrite list_get_middle. cbn [bind].
    unfold is_terminator in Hline. apply negb_true_iff in Hline. rewrite Hline.
    cbn [build_record]. destruct (rxn_entry t line) as [t1| |]; cbn [bind]; try reflexivity.
    specialize (IH (pre ++ [line]) (pre ++ line :: rest) t1 fuel Hrest).
    rewrite length_app in IH. cbn [List.length] in IH.
    replace (List.length pre + 1) with (S (List.length pre)) in IH by lia.
    apply IH; [lia | rewrite <- app_assoc; reflexivity].
Qed.

Lemma pf_lines_of_length (blocks : list (list string)) :
  List.length blocks <= List.length (pf_lines_of blocks).
Proof.
  induction blocks as [|body bs IH]; simpl; [lia|].
  rewrite !length_app. simpl. lia.
Qed.

(** The outer loop from the start of a block: one record per block, in
    order, the cursor moving to the line after each terminator. *)
Lemma rxn_loop_blocks (blocks : list (list string)) :
  forall (pre trailing pl_lines : list string) (rxn_acc : list dict) (fuel : nat),
  well_formed_blocks blocks = true ->
  no_terminator trailing = true ->
  pl_lines = pre ++ pf_lines_of blocks ++ trailing ->
  List.length blocks + List.length trailing <= fuel ->
  rxn_loop fuel pl_lines (List.length pre) rxn_acc =
  bind (map_outcome block_record blocks)
       (fun recs => after_blocks trailing (rxn_acc ++ recs)).
Proof.
  induction blocks as [|body bs IH];
    intros pre trailing pl_lines rxn_acc fuel Hwf Htr Hl Hfuel.
  - cbn [pf_lines_of flat_map app map_outcome bind] in *. subst pl_lines.
    rewrite app_nil_r. destruct trailing as [|line tr].
    + rewrite app_nil_r. destruct fuel; simpl; rewrite Nat.ltb_irrefl; reflexivity.
    + destruct fuel as [|fuel]; [simpl in Hfuel; lia|].
      cbn [rxn_loop].
      replace (Nat.ltb (List.length pre) (List.length (pre ++ line :: tr))) with true
        by (symmetry; apply Nat.ltb_lt; rewrite length_app; simpl; lia).
      rewrite (block_loop_trailing (line :: tr) pre (pre ++ line :: tr)); 
        [ | exact Htr | rewrite length_app; simpl; lia | reflexivity ].
      unfold after_blocks, block_record.
      destruct (build_record temp_rxn_init (line :: tr)); reflexivity.
  - unfold well_formed_blocks in Hwf. cbn [forallb] in Hwf.
    apply andb_true_iff in Hwf as [Hbody Hbs]. fold (well_formed_blocks bs) in Hbs.
    destruct fuel as [|fuel]; [simpl in Hfuel; lia|].
    cbn [pf_lines_of flat_map] in Hl. fold (pf_lines_of bs) in Hl.
    assert (Hshape : pl_lines = pre ++ body ++ "//" :: pf_lines_of bs ++ trailing).
    { rewrite Hl. rewrite <- !app_assoc. reflexivity. }
    cbn [rxn_loop].
    replace (Nat.ltb (List.length pre) (List.length pl_lines)) with true
      by (symmetry; apply Nat.ltb_lt; rewrite Hshape, !length_app; simpl; lia).
    rewrite (block_loop_body body pre (pf_lines_of bs ++ trailing) pl_lines);
      [ | exact Hbody | rewrite Hshape, !length_app; simpl; lia | exact Hshape ].
    cbn [map_outcome]. unfold block_record at 1.
    destruct (build_record temp_rxn_init body) as [r| |]; cbn [bind]; try reflexivity.
    replace (List.length pre + (List.length pre + List.length body + 1 - List.length pre))
      with (List.length (pre ++ body ++ ["//"]))
      by (rewrite !length_app; simpl; lia).
    rewrite (IH (pre ++ body ++ ["//"]) trailing pl_lines (rxn_acc ++ [r]) fuel Hbs Htr);
      [ | rewrite Hshape, <- !app_assoc; reflexivity | simpl in Hfuel; lia ].
    destruct (map_outcome block_record bs) as [recs| |]; cbn [bind]; try reflexivity.
    rewrite <- app_assoc. reflexivity.
Qed.

Lemma split_blocks_spec (lines : list string) :
  lines = pf_lines_of (fst (split_blocks lines)) ++ snd (split_blocks lines)
  /\ well_formed_blocks (fst (split_blocks lines)) = true
  /\ no_terminator (snd (split_blocks lines)) = true.
Proof.
  induction lines as [|line rest IH]; [repeat split|].
  cbn [split_blocks]. destruct (split_blocks rest) as [blocks trailing].
  cbn [fst snd] in IH. destruct IH as (Hl & Hwf & Htr).
  destruct (is_terminator line) eqn:Et.
  - cbn [fst snd]. repeat split; [| exact Hwf | exact Htr].
    unfold is_terminator in Et. apply String.eqb_eq in Et. subst line.
    simpl. f_equal. exact Hl.
  - destruct blocks as [|body bs]; cbn [fst snd].
    + repeat split. { simpl. f_equal. exact Hl. }
      simpl. rewrite Et. exact Htr.
    + repeat split.
      * simpl. f_equal. exact Hl.
      * unfold well_formed_blocks in *. cbn [forallb no_terminator] in *.
        rewrite Et. exact Hwf.
      * exact Htr.
Qed.

(** The parser on blocks followed by lines without terminator. *)
Lemma parse_pl_lines_blocks (blocks : list (list string)) (trailing : list string) :
  well_formed_blocks blocks = true ->
  no_terminator trailing = true ->
  parse_pl_lines (pf_lines_of blocks ++ trailing) =
  bind (map_outcome block_record blocks) (after_blocks trailing).
Proof.
  intros Hwf Htr. unfold parse_pl_lines.
  rewrite (rxn_loop_blocks blocks [] trailing _ [] _ Hwf Htr eq_refl).
  - reflexivity.
  - rewrite length_app. pose proof (pf_lines_of_length blocks). lia.
Qed.

(** The parser on any sequence of lines. *)
Lemma parse_pl_lines_eq (pl_lines : list string) :
  parse_pl_lines pl_lines =
  bind (map_outcome block_record (fst (split_blocks pl_lines)))
       (after_blocks (snd (split_blocks pl_lines))).
Proof.
  destruct (split_blocks_spec pl_lines) as (Hl & Hwf & Htr).
  rewrite Hl at 1. apply parse_pl_lines_blocks; assumption.
Qed.

(* ================================================================== *)
(** ** The loops of the duplicate-ORF loader                           *)
(* ================================================================== *)

Lemma list_set_middle {A : Type} (pre post : list A) (x y : A) :
  list_set (pre ++ x :: post) (List.length pre) y = Return (pre ++ y :: post).
Proof.
  induction pre as [|a pre IH]; simpl; [reflexivity|].
  rewrite IH. reflexivity.
Qed.

(** The inner loop from position [length done] of the group at [length pre]. *)
Lemma prefix_orf_loop (todo : list string) :
  forall (done : list string) (pre post : list (list string)),
  for_range (seq (List.length done) (List.length todo))
            (prefix_orf (List.length pre)) (pre ++ (done ++ todo) :: post) =
  Return (pre ++ (done ++ map (String.append ID_TAB) todo) :: post).
Proof.
  induction todo as [|orf rest IH]; intros done pre post; [reflexivity|].
  cbn [List.length seq for_range map].
  unfold prefix_orf at 1.
  rewrite list_get_middle. cbn [bind].
  rewrite list_get_middle. cbn [bind].
  rewrite list_set_middle. cbn [bind].
  rewrite list_set_middle. cbn [bind].
  specialize (IH (done ++ [ID_TAB ++ orf]%string) pre post).
  rewrite length_app in IH. cbn [List.length] in IH.
  replace (List.length done + 1) with (S (List.length done)) in IH by lia.
  rewrite <- !app_assoc in IH. exact IH.
Qed.

Lemma prefix_group_middle (pre post : list (list string)) (group : list string) :
  prefix_group (List.length pre) (pre ++ group :: post) =
  Return (pre ++ map (String.append ID_TAB) group :: post).
Proof.
  unfold prefix_group. rewrite list_get_middle. cbn [bind].
  apply (prefix_orf_loop group [] pre post).
Qed.

Lemma prefix_group_loop (todo : list (list string)) :
  forall (done : list (list string)),
  for_range (seq (List.length done) (List.length todo)) prefix_group (done ++ todo) =
  Return (done ++ map (map (String.append ID_TAB)) todo).
Proof.
  induction todo as [|group rest IH]; intro done; [reflexivity|].
  cbn [List.length seq for_range map].
  rewrite prefix_group_middle. cbn [bind].
  specialize (IH (done ++ [map (String.append ID_TAB) group])).
  rewrite length_app in IH. cbn [List.length] in IH.
  replace (List.length done + 1) with (S (List.length done)) in IH by lia.
  rewrite <- !app_assoc in IH. exact IH.
Qed.

Lemma split_tab_no_tab (s : string) :
  contains_tab s = false -> split_tab s = [s].
Proof.
  induction s as [|c r IH]; simpl; intro H; [reflexivity|].
  apply orb_false_iff in H as [Hc Hr]. rewrite Hc, (IH Hr). reflexivity.
Qed.

Lemma split_tab_not_nil (s : string) : split_tab s <> [].
Proof.
  destruct s as [|c r]; simpl; [discriminate|].
  destruct (Ascii.eqb c tab); [discriminate|].
  destruct (split_tab r); discriminate.
Qed.

(* ================================================================== *)
(** ** Data frames                                                     *)
(* ================================================================== *)

Lemma label_eqb_refl (l : label) : label_eqb l l = true.
Proof.
  destruct l; simpl; [apply Nat.eqb_refl | apply String.eqb_refl].
Qed.

Lemma add_key_incl (ks : list string) (acc : list string) (k : string) :
  In k acc -> In k (fold_left add_key ks acc).
Proof.
  revert acc; induction ks as [|a ks IH]; simpl; intros acc H; [exact H|].
  apply IH. unfold add_key. destruct (existsb (String.eqb a) acc); [exact H|].
  apply in_or_app. left. exact H.
Qed.

Lemma add_key_new (ks : list string) (acc : list string) (k : string) :
  In k ks -> In k (fold_left add_key ks acc).
Proof.
  revert acc; induction ks as [|a ks IH]; simpl; intros acc H; [contradiction|].
  destruct H as [->|H]; [|apply IH; exact H].
  apply add_key_incl. unfold add_key.
  destruct (existsb (String.eqb k) acc) eqn:E.
  - apply existsb_exists in E as (x & Hx & Ex).
    apply String.eqb_eq in Ex. subst x. exact Hx.
  - apply in_or_app. right. left. reflexivity.
Qed.

Lemma union_keys_from (recs : list dict) (acc : list string) (k : string) :
  In k acc \/ (exists d, In d recs /\ In k (dict_keys d)) ->
  In k (fold_left (fun acc d => fold_left add_key (dict_keys d) acc) recs acc).
Proof.
  revert acc; induction recs as [|d recs IH]; simpl; intros acc H.
  - destruct H as [H|(d & [] & _)]. exact H.
  - apply IH. destruct H as [H|(d' & [<-|Hd] & Hk)].
    + left. apply add_key_incl. exact H.
    + left. apply add_key_new. exact Hk.
    + right. exists d'. split; assumption.
Qed.

Lemma union_keys_in (recs : list dict) (d : dict) (k : string) :
  In d recs -> In k (dict_keys d) -> In k (union_keys recs).
Proof.
  intros Hd Hk. apply union_keys_from. right. exists d. split; assumption.
Qed.

Lemma positions_from_in (cols : list label) (l c : label) (i j : nat) :
  nth_error cols j = Some c -> label_eqb c l = true ->
  In (i + j) (positions_from i cols l).
Proof.
  revert i j; induction cols as [|c0 cols IH]; intros i j Hj Hc.
  - destruct j; discriminate.
  - destruct j as [|j]; simpl in Hj.
    + injection Hj as ->. simpl. rewrite Hc. left. lia.
    + simpl. replace (i + S j) with (S i + j) by lia.
      destruct (label_eqb c0 l); [right|]; apply IH; assumption.
Qed.

(** A field of the record of row [i] shows in the frame under the renamed
    label of its key. *)
Lemma pf_frame_field (recs : list dict) (i : nat) (rec : dict) (k k' : string)
    (v : pyval) (P : cell -> bool) :
  nth_error recs i = Some rec ->
  dict_get rec k = Some v ->
  rename_label pf_column_names (LName k) = LName k' ->
  P (Some v) = true ->
  existsb P (cells_at (pf_frame recs) i k') = true.
Proof.
  intros Hi Hk Hren HP.
  assert (Hin : In k (union_keys recs)).
  { apply (union_keys_in recs rec); [eapply nth_error_In; exact Hi|].
    eapply dict_get_in_keys; exact Hk. }
  apply In_nth_error in Hin as (j & Hj).
  unfold cells_at, pf_frame, rename_columns, frame_of_records. cbn [rows columns].
  rewrite (map_nth_error _ _ _ Hi).
  apply existsb_exists. exists (Some v). split; [|exact HP].
  apply in_map_iff. exists j. split.
  - apply nth_error_nth. rewrite (map_nth_error _ _ _ Hj). f_equal. exact Hk.
  - change j with (0 + j). apply positions_from_in with (c := LName k').
    + rewrite map_map. rewrite (map_nth_error _ _ _ Hj). f_equal. exact Hren.
    + apply label_eqb_refl.
Qed.

Lemma rename_label_pf (l : label) :
  rename_label pf_column_names l <> LName "ID"
  /\ rename_label pf_column_names l <> LName "PRODUCT-TYPE".
Proof.
  unfold pf_column_names. cbn [rename_label].
  destruct (label_eqb l (LName "ID")) eqn:E1; [split; discriminate|].
  destruct (label_eqb l (LName "PRODUCT-TYPE")) eqn:E2; [split; discriminate|].
  split; intros ->; [rewrite label_eqb_refl in E1 | rewrite label_eqb_refl in E2];
    discriminate.
Qed.

(* ================================================================== *)
(** ** No call runs out of fuel                                        *)
(* ================================================================== *)

Lemma rxn_entry_has_fuel (t : dict) (line : string) :
  rxn_entry t line <> OutOfFuel.
Proof.
  rewrite rxn_entry_eq. destruct (row_key line) as [k|]; [|discriminate].
  unfold dict_append.
  destruct (String.eqb k "EC"); [destruct (dict_get t "ec") as [[|]|]; discriminate|].
  destruct (String.eqb k "METACYC");
    [destruct (dict_get t "metacyc") as [[|]|]; discriminate | discriminate].
Qed.

Lemma build_record_has_fuel (body : list string) (t : dict) :
  build_record t body <> OutOfFuel.
Proof.
  revert t; induction body as [|line rest IH]; simpl; intro t; [discriminate|].
  pose proof (rxn_entry_has_fuel t line).
  destruct (rxn_entry t line) as [t1| |]; simpl; [apply IH | discriminate | congruence].
Qed.

Lemma map_outcome_has_fuel {A B : Type} (f : A -> outcome B) (l : list A) :
  (forall a, f a <> OutOfFuel) -> map_outcome f l <> OutOfFuel.
Proof.
  intro Hf. induction l as [|a l IH]; simpl; [discriminate|].
  pose proof (Hf a). destruct (f a); simpl; [|discriminate|congruence].
  destruct (map_outcome f l); simpl; [discriminate|discriminate|congruence].
Qed.

Lemma after_blocks_has_fuel (trailing : list string) (rxn_acc : list dict) :
  after_blocks trailing rxn_acc <> OutOfFuel.
Proof.
  destruct trailing as [|line tr]; simpl; [discriminate|].
  pose proof (build_record_has_fuel (line :: tr) temp_rxn_init).
  unfold block_record. destruct (build_record temp_rxn_init (line :: tr));
    simpl; [discriminate|discriminate|congruence].
Qed.

(** The fuel the parser gives its loops is enough on every input. *)
Lemma parse_pl_lines_has_fuel (pl_lines : list string) :
  parse_pl_lines pl_lines <> OutOfFuel.
Proof.
  rewrite parse_pl_lines_eq.
  pose proof (map_outcome_has_fuel block_record (fst (split_blocks pl_lines))
                (fun b => build_record_has_fuel b temp_rxn_init)).
  destruct (map_outcome block_record (fst (split_blocks pl_lines)));
    simpl; [apply after_blocks_has_fuel | discriminate | congruence].
Qed.

Lemma convert_pl_input_to_rxn_df_eq (fs : filesystem) (pl text : string) :
  fs pl = Some text ->
  convert_pl_input_to_rxn_df fs pl =
  bind (parse_pl_lines (stripped_lines text)) (fun rxn_acc => Return (pf_frame rxn_acc)).
Proof.
  intro H. unfold convert_pl_input_to_rxn_df, open_lines. rewrite H. reflexivity.
Qed.

Lemma convert_pl_input_to_rxn_df_has_fuel (fs : filesystem) (pl : string) :
  convert_pl_input_to_rxn_df fs pl <> OutOfFuel.
Proof.
  destruct (fs pl) as [text|] eqn:E.
  - rewrite (convert_pl_input_to_rxn_df_eq fs pl text E).
    pose proof (parse_pl_lines_has_fuel (stripped_lines text)).
    destruct (parse_pl_lines (stripped_lines text)); simpl; congruence.
  - unfold convert_pl_input_to_rxn_df, open_lines. rewrite E. discriminate.
Qed.

(* ================================================================== *)
(** ** When the parser returns and when it raises                      *)
(* ================================================================== *)

Lemma forallb_imp {A : Type} (P Q : A -> bool) (l : list A) :
  (forall x, P x = true -> Q x = true) ->
  forallb P l = true -> forallb Q l = true.
Proof.
  intros H Hl. apply forallb_forall. intros x Hx.
  apply H. apply (proj1 (forallb_forall P l) Hl x Hx).
Qed.

Lemma forallb_imp2 {A : Type} (P R Q : A -> bool) (l : list A) :
  (forall x, P x = true -> R x = true -> Q x = true) ->
  forallb P l = true -> forallb R l = true -> forallb Q l = true.
Proof.
  intros H HP HR. apply forallb_forall. intros x Hx.
  apply H; [apply (proj1 (forallb_forall P l) HP x Hx)
           | apply (proj1 (forallb_forall R l) HR x Hx)].
Qed.

Lemma pf_lines_of_app (a b : list (list string)) :
  pf_lines_of (a ++ b) = pf_lines_of a ++ pf_lines_of b.
Proof. unfold pf_lines_of. apply flat_map_app. Qed.

Lemma forallb_pf_lines_of (P : string -> bool) (blocks : list (list string)) :
  forallb P (pf_lines_of blocks) = true ->
  Forall (fun body => forallb P body = true) blocks.
Proof.
  induction blocks as [|body bs IH]; simpl; intro H; [constructor|].
  rewrite !forallb_app in H. apply andb_true_iff in H as [Hb Hbs].
  apply andb_true_iff in Hb as [Hb _].
  constructor; [exact Hb | apply IH; exact Hbs].
Qed.

Lemma pf_lines_of_forallb (P : string -> bool) (blocks : list (list string)) :
  P "//" = true ->
  Forall (fun body => forallb P body = true) blocks ->
  forallb P (pf_lines_of blocks) = true.
Proof.
  intros Ht H. induction H as [|body bs Hb _ IH]; simpl; [reflexivity|].
  rewrite !forallb_app, Hb, IH. simpl. rewrite Ht. reflexivity.
Qed.

Lemma unterminated_blocks (blocks : list (list string)) (trailing : list string) :
  no_terminator trailing = true ->
  unterminated (pf_lines_of blocks ++ trailing) =
  match trailing with [] => false | _ :: _ => true end.
Proof.
  intro Htr. unfold unterminated.
  destruct trailing as [|x t].
  - rewrite app_nil_r. destruct blocks as [|b bs] using rev_ind; [reflexivity|].
    rewrite pf_lines_of_app. cbn [pf_lines_of flat_map].
    rewrite app_nil_r, !rev_app_distr. reflexivity.
  - destruct (exists_last (l := x :: t)) as (tr' & y & Hy); [discriminate|].
    rewrite Hy in *. unfold no_terminator in Htr. rewrite forallb_app in Htr.
    apply andb_true_iff in Htr as [_ Hlast]. simpl in Hlast.
    rewrite andb_true_r in Hlast.
    rewrite !rev_app_distr. cbn [rev app]. rewrite Hlast.
    destruct tr'; reflexivity.
Qed.

(** The lines after the last terminator are there exactly when the last
    line is no terminator. *)
Lemma split_blocks_unterminated (pl_lines : list string) :
  unterminated pl_lines =
  match snd (split_blocks pl_lines) with [] => false | _ :: _ => true end.
Proof.
  destruct (split_blocks_spec pl_lines) as (Hl & _ & Htr).
  rewrite Hl at 1. apply unterminated_blocks. exact Htr.
Qed.

Lemma build_record_return_has_key (body : list string) (t t' : dict) :
  build_record t body = Return t' -> forallb has_key body = true.
Proof.
  revert t; induction body as [|line rest IH]; simpl; intros t H; [reflexivity|].
  apply bind_return_inv in H as (t1 & H1 & H2).
  rewrite (IH t1 H2), andb_true_r.
  rewrite rxn_entry_eq in H1. rewrite row_key_has_key.
  destruct (row_key line); [reflexivity | discriminate].
Qed.

Lemma has_key_contains_tab (line : string) :
  has_key line = true -> contains_tab line = true.
Proof.
  destruct line as [|c r]; simpl; [discriminate|].
  intros ->. apply orb_true_r.
Qed.

Lemma map_outcome_all {A B : Type} (f : A -> outcome B) (l : list A) :
  Forall (fun a => exists b, f a = Return b) l ->
  exists r, map_outcome f l = Return r.
Proof.
  induction 1 as [|a l (b & Hb) _ (r & Hr)]; simpl.
  - exists []. reflexivity.
  - exists (b :: r). rewrite Hb, Hr. reflexivity.
Qed.

Lemma map_outcome_raise {A B : Type} (f : A -> outcome B) (l : list A) (e : exn) :
  map_outcome f l = Raise e -> exists a, In a l /\ f a = Raise e.
Proof.
  induction l as [|a l IH]; simpl; [discriminate|].
  destruct (f a) as [b|e'|] eqn:Ea; simpl.
  - destruct (map_outcome f l) as [bs|e'|]; simpl; try discriminate.
    intro H; injection H as ->.
    destruct (IH eq_refl) as (a' & Hin & Ha'). exists a'. split; [right|]; assumption.
  - intro H; injection H as ->. exists a. split; [left; reflexivity | exact Ea].
  - discriminate.
Qed.

Lemma temp_rxn_init_other (k : string) :
  k <> "ec" -> k <> "metacyc" -> dict_get temp_rxn_init k = None.
Proof.
  intros H1 H2. unfold temp_rxn_init. cbn [dict_get].
  destruct (String.eqb "ec" k) eqn:E1; [apply String.eqb_eq in E1; congruence|].
  destruct (String.eqb "metacyc" k) eqn:E2; [apply String.eqb_eq in E2; congruence|].
  reflexivity.
Qed.

(** The record of a block whose lines all have a key, none of them [ec] or
    [metacyc]. *)
Lemma block_record_plain (body : list string) :
  forallb has_key body = true ->
  forallb no_lower_key body = true ->
  exists rec,
    block_record body = Return rec
    /\ dict_get rec "ec" = Some (PyList (lines_keyed "EC" body))
    /\ dict_get rec "metacyc" = Some (PyList (lines_keyed "METACYC" body))
    /\ forall k, ordinary_key k = true ->
         dict_get rec k = option_map PyStr (last_keyed k body).
Proof.
  intros Hkey Hlow.
  pose proof (build_record_lists body temp_rxn_init [] [] eq_refl eq_refl Hlow) as H.
  unfold block_record. destruct (build_record temp_rxn_init body) as [rec|e|].
  - exists rec. destruct H as (H1 & H2 & H3). repeat split; try assumption.
    intros k Hk. rewrite (H3 k Hk).
    destruct (last_keyed k body); [reflexivity|].
    apply ordinary_key_inv in Hk as (_ & _ & _ & _ & K5 & K6).
    apply temp_rxn_init_other; assumption.
  - destruct H as [_ H]. congruence.
  - contradiction.
Qed.

(** Without the keys [ec] and [metacyc] a block raises nothing but the
    index error. *)
Lemma block_record_index_error (body : list string) (e : exn) :
  forallb no_lower_key body = true ->
  block_record body = Raise e -> e = IndexError.
Proof.
  intros Hlow He.
  pose proof (build_record_lists body temp_rxn_init [] [] eq_refl eq_refl Hlow) as H.
  unfold block_record in He. rewrite He in H. apply H.
Qed.

Lemma blocks_return_has_key (blocks : list (list string)) (recs : list dict) :
  Forall2 (fun body rec => block_record body = Return rec) blocks recs ->
  Forall (fun body =>
            forallb (fun line => is_terminator line || has_key line) body = true)
         blocks.
Proof.
  induction 1 as [|body rec bs rs Hb _ IH]; constructor; [|exact IH].
  apply (forallb_imp has_key); [intros x ->; apply orb_true_r|].
  apply (build_record_return_has_key body temp_rxn_init rec Hb).
Qed.

(** A parse that returns has read an input that ends with a terminator or
    is empty, and whose other lines all have a tab after the first
    character. *)
Lemma parse_pl_lines_return_inv (pl_lines : list string) (rxn_acc : list dict) :
  parse_pl_lines pl_lines = Return rxn_acc ->
  unterminated pl_lines = false
  /\ forallb (fun line => is_terminator line || has_key line) pl_lines = true
  /\ map_outcome block_record (fst (split_blocks pl_lines)) = Return rxn_acc.
Proof.
  rewrite parse_pl_lines_eq, split_blocks_unterminated.
  destruct (split_blocks_spec pl_lines) as (Hl & Hwf & Htr).
  intro H. apply bind_return_inv in H as (recs & Hrecs & Hafter).
  destruct (snd (split_blocks pl_lines)) as [|x t] eqn:Etr.
  - simpl in Hafter. injection Hafter as <-. repeat split; [|exact Hrecs].
    rewrite Hl, app_nil_r. apply pf_lines_of_forallb; [reflexivity|].
    apply map_outcome_return in Hrecs. apply (blocks_return_has_key _ _ Hrecs).
  - unfold after_blocks in Hafter.
    destruct (block_record (x :: t)); discriminate.
Qed.

(** The parser returns on a terminated input whose lines all have a key,
    none of them [ec] or [metacyc]. *)
Lemma parse_pl_lines_returns (pl_lines : list string) :
  unterminated pl_lines = false ->
  forallb (fun line => is_terminator line || (has_key line && no_lower_key line))
          pl_lines = true ->
  exists rxn_acc, parse_pl_lines pl_lines = Return rxn_acc.
Proof.
  rewrite parse_pl_lines_eq, split_blocks_unterminated.
  destruct (split_blocks_spec pl_lines) as (Hl & Hwf & Htr).
  destruct (snd (split_blocks pl_lines)) as [|x t]; [|discriminate].
  intros _ Hall. rewrite Hl, app_nil_r in Hall.
  apply forallb_pf_lines_of in Hall.
  destruct (map_outcome_all block_record (fst (split_blocks pl_lines))) as (r & Hr).
  - unfold well_formed_blocks in Hwf.
    pose proof (proj1 (forallb_forall _ _) Hwf) as Hwf'.
    apply Forall_forall. intros body Hbody.
    pose proof (proj1 (Forall_forall _ _) Hall body Hbody) as Hb.
    specialize (Hwf' body Hbody). unfold no_terminator in Hwf'.
    destruct (block_record_plain body) as (rec & Hrec & _).
    + revert Hb Hwf'. apply forallb_imp2. intros l H1 H2.
      apply negb_true_iff in H2. rewrite H2 in H1. simpl in H1.
      apply andb_true_iff in H1. apply H1.
    + revert Hb Hwf'. apply forallb_imp2. intros l H1 H2.
      apply negb_true_iff in H2. rewrite H2 in H1. simpl in H1.
      apply andb_true_iff in H1. apply H1.
    + exists rec. exact Hrec.
  - exists r. rewrite Hr. reflexivity.
Qed.

(** Without the keys [ec] and [metacyc] the parser raises nothing but the
    index error. *)
Lemma parse_pl_lines_index_error (pl_lines : list string) (e : exn) :
  forallb no_lower_key pl_lines = true ->
  parse_pl_lines pl_lines = Raise e -> e = IndexError.
Proof.
  rewrite parse_pl_lines_eq.
  destruct (split_blocks_spec pl_lines) as (Hl & Hwf & Htr).
  intro Hlow. rewrite Hl, forallb_app in Hlow.
  apply andb_true_iff in Hlow as [Hblocks Htrail].
  apply forallb_pf_lines_of in Hblocks.
  destruct (map_outcome block_record (fst (split_blocks pl_lines))) as [recs|e'|] eqn:Em;
    simpl; [| |discriminate].
  - unfold after_blocks. destruct (snd (split_blocks pl_lines)) as [|x t]; [discriminate|].
    destruct (block_record (x :: t)) as [rec|e'|] eqn:Eb; simpl; [| |discriminate].
    + congruence.
    + intro H; injection H as <-. apply (block_record_index_error (x :: t) e' Htrail Eb).
  - intro H; injection H as <-.
    apply map_outcome_raise in Em as (body & Hin & Hb).
    apply (block_record_index_error body e'); [|exact Hb].
    apply (proj1 (Forall_forall _ _) Hblocks body Hin).
Qed.

(** An input with a line after its last terminator makes the parser raise. *)
Lemma parse_pl_lines_unterminated (pl_lines : list string) :
  unterminated pl_lines = true -> exists e, parse_pl_lines pl_lines = Raise e.
Proof.
  intro H. destruct (parse_pl_lines pl_lines) as [r|e|] eqn:E.
  - apply parse_pl_lines_return_inv in E as (E & _). congruence.
  - exists e. reflexivity.
  - apply parse_pl_lines_has_fuel in E. contradiction.
Qed.

(* ================================================================== *)
(** ** The cursor of the outer loop                                    *)
(* ================================================================== *)




Lemma Forall2_nth_error {A B : Type} (R : A -> B -> Prop) (l1 : list A) (l2 : list B)
    (i : nat) (a : A) :
  Forall2 R l1 l2 -> nth_error l1 i = Some a ->
  exists b, nth_error l2 i = Some b /\ R a b.
Proof.
  intro H. revert i. induction H as [|x y l1 l2 Hxy _ IH]; intros i Hi.
  - destruct i; discriminate.
  - destruct i as [|i]; simpl in *.
    + injection Hi as ->. exists y. split; [reflexivity | exact Hxy].
    + apply IH. exact Hi.
Qed.

Lemma Forall2_nth_error_right {A B : Type} (R : A -> B -> Prop) (l1 : list A)
    (l2 : list B) (i : nat) (b : B) :
  Forall2 R l1 l2 -> nth_error l2 i = Some b ->
  exists a, nth_error l1 i = Some a /\ R a b.
Proof.
  intro H. revert i. induction H as [|x y l1 l2 Hxy _ IH]; intros i Hi.
  - destruct i; discriminate.
  - destruct i as [|i]; simpl in *.
    + injection Hi as ->. exists x. split; [reflexivity | exact Hxy].
    + apply IH. exact Hi.
Qed.

(** A block that names neither the key [K] nor the field [f] leaves the
    field [f] as it found it. *)
Lemma build_record_untouched (f K : string) (body : list string) :
  (f = "ec" /\ K = "EC") \/ (f = "metacyc" /\ K = "METACYC") ->
  forall t t', existsb (keyed K) body = false -> existsb (keyed f) body = false ->
  build_record t body = Return t' -> dict_get t' f = dict_get t f.
Proof.
  intro HfK. induction body as [|line rest IH]; simpl; intros t t' HK Hf H.
  - injection H as <-. reflexivity.
  - apply orb_false_iff in HK as [HK HKr]. apply orb_false_iff in Hf as [Hf Hfr].
    apply bind_return_inv in H as (t1 & H1 & H2).
    rewrite (IH t1 t' HKr Hfr H2). clear IH H2.
    rewrite rxn_entry_eq in H1.
    destruct (row_key line) as [key|] eqn:Ekey; [|discriminate].
    apply row_key_keyed in Ekey.
    assert (NK : key <> K) by (intros ->; congruence).
    assert (Nf : key <> f) by (intros ->; congruence).
    destruct (String.eqb key "EC") eqn:E1.
    { apply String.eqb_eq in E1. apply dict_append_return in H1 as (l & _ & ->).
      apply dict_get_set_other. destruct HfK as [[-> ->]|[-> ->]]; congruence. }
    destruct (String.eqb key "METACYC") eqn:E2.
    { apply String.eqb_eq in E2. apply dict_append_return in H1 as (l & _ & ->).
      apply dict_get_set_other. destruct HfK as [[-> ->]|[-> ->]]; congruence. }
    injection H1 as <-. apply dict_get_set_other. exact Nf.
Qed.

Lemma plain_line_inv (line : string) :
  plain_line line = true -> has_key line = true /\ no_lower_key line = true.
Proof.
  unfold plain_line, no_lower_key. destruct line as [|c r]; [discriminate|].
  rewrite !andb_true_iff. cbn [has_key]. tauto.
Qed.

(* ================================================================== *)
(** ** Properties of the PF parser                                     *)
(* ================================================================== *)






(** C5 fails as stated: the parser also fails on inputs whose blocks are
    all terminated and whose lines all contain a tab. In the first input an
    [EC] line follows a line with the key [ec], and the append raises an
    attribute error; in the second the only tab of the line is its first
    character, which the search for the tab passes over, and the index runs
    past the end of the line; in the third the line [NAME<TAB>] of the file
    has a tab after its key, which the stripping of the line removes with
    the newline before the line is read. *)
Lemma failure_without_format_error :
  (stripped_lines (text_of lower_key_lines) = lower_key_lines
   /\ unterminated lower_key_lines = false
   /\ forallb (fun line => is_terminator line || contains_tab line) lower_key_lines = true
   /\ convert_pl_input_to_rxn_df (one_file "0.pf" (text_of lower_key_lines)) "0.pf"
      = Raise AttributeError)
  /\ (stripped_lines (text_of leading_tab_lines) = leading_tab_lines
      /\ unterminated leading_tab_lines = false
      /\ forallb (fun line => is_terminator line || contains_tab line)
                 leading_tab_lines = true
      /\ convert_pl_input_to_rxn_df (one_file "0.pf" (text_of leading_tab_lines)) "0.pf"
         = Raise IndexError)
  /\ (iter_lines (universal_newlines empty_value_pf)
      = [(entry "ID" "O_1" ++ NL)%string; ("NAME" ++ TAB ++ NL)%string; ("//" ++ NL)%string]
      /\ unterminated (stripped_lines empty_value_pf) = false
      /\ forallb (fun raw => is_terminator (rstrip raw) || plain_line raw)
                 (iter_lines (universal_newlines empty_value_pf)) = true
      /\ convert_pl_input_to_rxn_df (one_file "0.pf" empty_value_pf) "0.pf"
         = Raise IndexError).
Proof. repeat split; vm_compute; reflexivity. Qed.

Lemma existsb_false {A : Type} (f : A -> bool) (l : list A) (x : A) :
  existsb f l = false -> In x l -> f x = false.
Proof.
  intros H Hin. destruct (f x) eqn:E; [|reflexivity].
  assert (existsb f l = true) by (apply existsb_exists; exists x; split; assumption).
  congruence.
Qed.

(** A parse that returns has read an input without format error. *)
Lemma parse_pl_lines_return_well_formed (pl_lines : list string) (rxn_acc : list dict) :
  parse_pl_lines pl_lines = Return rxn_acc -> malformed pl_lines = false.
Proof.
  intro H. apply parse_pl_lines_return_inv in H as (Hterm & Hkeys & _).
  unfold malformed. rewrite Hterm. cbn [orb].
  destruct (existsb tabless pl_lines) eqn:E; [|reflexivity].
  apply existsb_exists in E as (line & Hin & Hline).
  pose proof (proj1 (forallb_forall _ _) Hkeys line Hin) as Hk. cbv beta in Hk.
  unfold tabless in Hline. apply andb_true_iff in Hline as [Hnt Hnotab].
  apply negb_true_iff in Hnt, Hnotab. rewrite Hnt in Hk. simpl in Hk.
  apply has_key_contains_tab in Hk. congruence.
Qed.

(** Without format error, leading tab and lower-case key the parse
    returns. *)
Lemma parse_pl_lines_well_formed_returns (pl_lines : list string) :
  forallb well_keyed pl_lines = true ->
  malformed pl_lines = false ->
  exists rxn_acc, parse_pl_lines pl_lines = Return rxn_acc.
Proof.
  intros Hkeyed Hmal. unfold malformed in Hmal.
  apply orb_false_iff in Hmal as [Hterm Htabs].
  apply (parse_pl_lines_returns pl_lines Hterm).
  apply forallb_forall. intros line Hin.
  pose proof (proj1 (forallb_forall _ _) Hkeyed line Hin) as Hk.
  pose proof (existsb_false tabless pl_lines line Htabs Hin) as Ht.
  unfold well_keyed in Hk. apply andb_true_iff in Hk as [Hlead Hlow].
  apply negb_true_iff in Hlead. unfold tabless in Ht.
  destruct (is_terminator line); [reflexivity|]. cbn [negb andb orb] in *.
  apply negb_false_iff in Ht. rewrite Hlow, andb_true_r.
  destruct line as [|c r]; [discriminate|]. cbn [leading_tab] in Hlead.
  cbn [contains_tab] in Ht. rewrite Hlead in Ht. exact Ht.
Qed.

Lemma well_keyed_no_lower_key (pl_lines : list string) :
  forallb well_keyed pl_lines = true -> forallb no_lower_key pl_lines = true.
Proof.
  apply forallb_imp. intros line H. unfold well_keyed in H.
  apply andb_true_iff in H. apply H.
Qed.

(** C5, amended. The lines are read as the parser reads them, each stripped
    of its trailing whitespace, so that a line [KEY<TAB>] with an empty
    value is a line without tab. On every input, parsing fails, the
    exception reaching the caller, when the input stops before a [//]
    closes its last block or a line other than [//] contains no tab. On an
    input without the keys [ec] and [metacyc] the only exception is the
    index error. On an input where, moreover, no line begins with a tab,
    parsing fails exactly in these two cases, and in every other case the
    document is returned. *)
Theorem pf_format_errors (fs : filesystem) (pl text : string) :
  fs pl = Some text ->
  (malformed (stripped_lines text) = true ->
   exists e, convert_pl_input_to_rxn_df fs pl = Raise e)
  /\ (forallb no_lower_key (stripped_lines text) = true ->
      forall e, convert_pl_input_to_rxn_df fs pl = Raise e -> e = IndexError)
  /\ (forallb well_keyed (stripped_lines text) = true ->
      (convert_pl_input_to_rxn_df fs pl = Raise IndexError <->
       malformed (stripped_lines text) = true)
      /\ ((exists df, convert_pl_input_to_rxn_df fs pl = Return df) <->
          malformed (stripped_lines text) = false)).
Proof.
  intro Hfs. rewrite (convert_pl_input_to_rxn_df_eq fs pl text Hfs).
  set (pl_lines := stripped_lines text).
  assert (Hfail : malformed pl_lines = true ->
                  exists e, parse_pl_lines pl_lines = Raise e).
  { intro Hbad. destruct (parse_pl_lines pl_lines) as [r|e|] eqn:E.
    - apply parse_pl_lines_return_well_formed in E. congruence.
    - exists e. reflexivity.
    - apply parse_pl_lines_has_fuel in E. contradiction. }
  split; [|split].
  - intro Hbad. destruct (Hfail Hbad) as (e & ->). exists e. reflexivity.
  - intros Hlow e He. destruct (parse_pl_lines pl_lines) as [r|e'|] eqn:E;
      simpl in He; try discriminate.
    injection He as <-. apply (parse_pl_lines_index_error pl_lines e' Hlow E).
  - intro Hkeyed. split; split.
    + intro H. destruct (malformed pl_lines) eqn:Em; [reflexivity|].
      destruct (parse_pl_lines_well_formed_returns pl_lines Hkeyed Em) as (r & Hr).
      rewrite Hr in H. discriminate.
    + intro Hbad. destruct (Hfail Hbad) as (e & He). rewrite He.
      rewrite (parse_pl_lines_index_error pl_lines e
                 (well_keyed_no_lower_key _ Hkeyed) He).
      reflexivity.
    + intros (df & Hdf). destruct (parse_pl_lines pl_lines) as [r|e'|] eqn:E;
        simpl in Hdf; try discriminate.
      apply (parse_pl_lines_return_well_formed pl_lines r E).
    + intro Hgood.
      destruct (parse_pl_lines_well_formed_returns pl_lines Hkeyed Hgood) as (r & Hr).
      exists (pf_frame r). rewrite Hr. reflexivity.
Qed.

Lemma pf_format_errors_witness :
  convert_pl_input_to_rxn_df
    (one_file "0.pf" (sample_pf ++ entry "ID" "O_3" ++ NL)) "0.pf" = Raise IndexError
  /\ convert_pl_input_to_rxn_df (one_file "0.pf" empty_value_pf) "0.pf" = Raise IndexError
  /\ (exists df, convert_pl_input_to_rxn_df (one_file "0.pf" sample_pf) "0.pf" = Return df).
Proof.
  split; [|split].
  - apply (pf_format_errors (one_file "0.pf" (sample_pf ++ entry "ID" "O_3" ++ NL))
             "0.pf" (sample_pf ++ entry "ID" "O_3" ++ NL) eq_refl);
      vm_compute; reflexivity.
  - apply (pf_format_errors (one_file "0.pf" empty_value_pf) "0.pf" empty_value_pf eq_refl);
      vm_compute; reflexivity.
  - apply (pf_format_errors (one_file "0.pf" sample_pf) "0.pf" sample_pf eq_refl);
      vm_compute; reflexivity.
Defined.

(** C6 fails as stated: a block without [ID] and [PRODUCT-TYPE] line gives
    a record that has neither [ORF_ID] nor [PRODUCT_TYPE]. *)
Lemma record_without_orf_id :
  exists df,
    convert_pl_input_to_rxn_df (one_file "0.pf" (text_of no_id_lines)) "0.pf" = Return df
    /\ List.length (rows df) = 1
    /\ has_str_field df 0 "ORF_ID" = false
    /\ has_str_field df 0 "PRODUCT_TYPE" = false.
Proof.
  eexists. split; [vm_compute; reflexivity|].
  repeat split; vm_compute; reflexivity.
Qed.

(** C6, amended. After post-processing no column is named [ID] or
    [PRODUCT-TYPE]: the field [ID] is renamed to [ORF_ID] and the field
    [PRODUCT-TYPE] to [PRODUCT_TYPE]; every record whose block has a line
    with the key [ID] has [ORF_ID] present as a string, and every record
    whose block has a line with the key [PRODUCT-TYPE] has [PRODUCT_TYPE]
    present as a string. *)
Theorem pf_renamed_fields (fs : filesystem) (pl text : string) (df : DataFrame) :
  fs pl = Some text ->
  convert_pl_input_to_rxn_df fs pl = Return df ->
  rename_label pf_column_names (LName "ID") = LName "ORF_ID"
  /\ rename_label pf_column_names (LName "PRODUCT-TYPE") = LName "PRODUCT_TYPE"
  /\ ~ In (LName "ID") (columns df)
  /\ ~ In (LName "PRODUCT-TYPE") (columns df)
  /\ forall i body,
       nth_error (fst (split_blocks (stripped_lines text))) i = Some body ->
       (existsb (keyed "ID") body = true -> has_str_field df i "ORF_ID" = true)
       /\ (existsb (keyed "PRODUCT-TYPE") body = true ->
           has_str_field df i "PRODUCT_TYPE" = true).
Proof.
  intros Hfs Hdf. rewrite (convert_pl_input_to_rxn_df_eq fs pl text Hfs) in Hdf.
  apply bind_return_inv in Hdf as (rxn_acc & Hacc & Hdf). injection Hdf as <-.
  split; [reflexivity|]. split; [reflexivity|].
  assert (Hcols : forall name, In name (columns (pf_frame rxn_acc)) ->
                  name <> LName "ID" /\ name <> LName "PRODUCT-TYPE").
  { intros name Hin. unfold pf_frame, rename_columns in Hin. cbn [columns] in Hin.
    apply in_map_iff in Hin as (l & <- & _). apply rename_label_pf. }
  split; [intro Hin; apply (Hcols _) in Hin as [H _]; congruence|].
  split; [intro Hin; apply (Hcols _) in Hin as [_ H]; congruence|].
  intros i body Hi.
  apply parse_pl_lines_return_inv in Hacc as (_ & _ & Hrecs).
  apply map_outcome_return in Hrecs.
  destruct (Forall2_nth_error _ _ _ i body Hrecs Hi) as (rec & Hrec & Hbody).
  split; intro Hex.
  - destruct (build_record_keyed_str body temp_rxn_init rec "ID") as (s & Hs);
      try discriminate; try reflexivity; try assumption.
    apply (pf_frame_field rxn_acc i rec "ID" "ORF_ID" (PyStr s));
      [exact Hrec | exact Hs | reflexivity | reflexivity].
  - destruct (build_record_keyed_str body temp_rxn_init rec "PRODUCT-TYPE") as (s & Hs);
      try discriminate; try reflexivity; try assumption.
    apply (pf_frame_field rxn_acc i rec "PRODUCT-TYPE" "PRODUCT_TYPE" (PyStr s));
      [exact Hrec | exact Hs | reflexivity | reflexivity].
Qed.

Lemma pf_renamed_fields_witness :
  exists df,
    convert_pl_input_to_rxn_df (one_file "0.pf" sample_pf) "0.pf" = Return df
    /\ ~ In (LName "ID") (columns df)
    /\ has_str_field df 0 "ORF_ID" = true
    /\ has_str_field df 1 "PRODUCT_TYPE" = true.
Proof.
  destruct (convert_pl_input_to_rxn_df (one_file "0.pf" sample_pf) "0.pf")
    as [df| |] eqn:E; [|vm_compute in E; discriminate|vm_compute in E; discriminate].
  destruct (pf_renamed_fields (one_file "0.pf" sample_pf) "0.pf" sample_pf df eq_refl E)
    as (_ & _ & Hid & _ & Hrows).
  exists df. split; [reflexivity|]. split; [exact Hid|]. split.
  - apply (Hrows 0 (nth 0 sample_blocks [])); vm_compute; reflexivity.
  - apply (Hrows 1 (nth 1 sample_blocks [])); vm_compute; reflexivity.
Defined.

(** C8. Every record starts as [{'ec': [], 'metacyc': []}], before any line
    of its block is read: each record of the output is what the lines of
    its block make of that initial record, both fields are present in it,
    and a field whose key the block does not declare is still the empty
    sequence; so every row of the output document has a value under [ec]
    and under [metacyc]. *)
Theorem ec_metacyc_always_present
    (fs : filesystem) (pl text : string) (df : DataFrame) :
  fs pl = Some text ->
  convert_pl_input_to_rxn_df fs pl = Return df ->
  dict_get temp_rxn_init "ec" = Some (PyList [])
  /\ dict_get temp_rxn_init "metacyc" = Some (PyList [])
  /\ (exists rxn_acc,
        df = pf_frame rxn_acc
        /\ Forall2 (fun body rec =>
                      build_record temp_rxn_init body = Return rec
                      /\ dict_get rec "ec" <> None
                      /\ dict_get rec "metacyc" <> None
                      /\ (existsb (keyed "EC") body = false ->
                          existsb (keyed "ec") body = false ->
                          dict_get rec "ec" = Some (PyList []))
                      /\ (existsb (keyed "METACYC") body = false ->
                          existsb (keyed "metacyc") body = false ->
                          dict_get rec "metacyc" = Some (PyList [])))
                   (fst (split_blocks (stripped_lines text))) rxn_acc)
  /\ forall i, i < List.length (rows df) ->
       has_field df i "ec" = true /\ has_field df i "metacyc" = true.
Proof.
  intros Hfs Hdf. rewrite (convert_pl_input_to_rxn_df_eq fs pl text Hfs) in Hdf.
  apply bind_return_inv in Hdf as (rxn_acc & Hacc & Hdf). injection Hdf as <-.
  split; [reflexivity|]. split; [reflexivity|].
  apply parse_pl_lines_return_inv in Hacc as (_ & _ & Hrecs).
  apply map_outcome_return in Hrecs.
  assert (Hall : Forall2 (fun body rec =>
                      build_record temp_rxn_init body = Return rec
                      /\ dict_get rec "ec" <> None
                      /\ dict_get rec "metacyc" <> None
                      /\ (existsb (keyed "EC") body = false ->
                          existsb (keyed "ec") body = false ->
                          dict_get rec "ec" = Some (PyList []))
                      /\ (existsb (keyed "METACYC") body = false ->
                          existsb (keyed "metacyc") body = false ->
                          dict_get rec "metacyc" = Some (PyList [])))
                   (fst (split_blocks (stripped_lines text))) rxn_acc).
  { induction Hrecs as [|body rec bs rs Hb _ IH]; constructor; [|exact IH].
    unfold block_record in Hb. split; [exact Hb|].
    split; [apply (build_record_keeps body temp_rxn_init rec "ec" Hb); discriminate|].
    split; [apply (build_record_keeps body temp_rxn_init rec "metacyc" Hb); discriminate|].
    split; intros HK Hf.
    - rewrite (build_record_untouched "ec" "EC" body (or_introl (conj eq_refl eq_refl))
                 temp_rxn_init rec HK Hf Hb). reflexivity.
    - rewrite (build_record_untouched "metacyc" "METACYC" body
                 (or_intror (conj eq_refl eq_refl)) temp_rxn_init rec HK Hf Hb).
      reflexivity. }
  split; [exists rxn_acc; split; [reflexivity | exact Hall]|].
  intros i Hi. unfold pf_frame, rename_columns, frame_of_records in Hi.
  cbn [rows] in Hi. rewrite length_map in Hi.
  destruct (nth_error rxn_acc i) as [rec|] eqn:Ei;
    [|apply nth_error_None in Ei; lia].
  destruct (Forall2_nth_error_right _ _ _ i rec Hall Ei)
    as (body & _ & _ & Hec & Hmc & _).
  unfold has_field. split.
  - destruct (dict_get rec "ec") as [v|] eqn:Ev; [|congruence].
    apply (pf_frame_field rxn_acc i rec "ec" "ec" v); auto.
  - destruct (dict_get rec "metacyc") as [v|] eqn:Ev; [|congruence].
    apply (pf_frame_field rxn_acc i rec "metacyc" "metacyc" v); auto.
Qed.

Lemma ec_metacyc_always_present_witness :
  exists df,
    convert_pl_input_to_rxn_df (one_file "0.pf" (text_of no_id_lines)) "0.pf" = Return df
    /\ has_field df 0 "ec" = true /\ has_field df 0 "metacyc" = true.
Proof.
  destruct (convert_pl_input_to_rxn_df (one_file "0.pf" (text_of no_id_lines)) "0.pf")
    as [df| |] eqn:E; [|vm_compute in E; discriminate|vm_compute in E; discriminate].
  exists df. split; [reflexivity|].
  apply (ec_metacyc_always_present (one_file "0.pf" (text_of no_id_lines)) "0.pf"
           (text_of no_id_lines) df eq_refl E).
  injection E as <-. vm_compute. apply le_n.
Defined.

(** C9 fails as stated: the exception raised on the lines after the last
    [//] is not always an index error. Here an [EC] line follows a line
    with the key [ec] there, and the append raises an attribute error
    before the index runs past the last line. *)
Lemma trailing_lines_attribute_error :
  stripped_lines (text_of trailing_lower_lines) = trailing_lower_lines
  /\ unterminated trailing_lower_lines = true
  /\ convert_pl_input_to_rxn_df (one_file "0.pf" (text_of trailing_lower_lines)) "0.pf"
     = Raise AttributeError.
Proof. repeat split; vm_compute; reflexivity. Qed.

(** C9, amended. The parser returns only on inputs that end with the final
    [//]: for every input with a line after the last [//], even a single
    empty line, it reads the trailing lines as a new block and raises
    instead of returning the document; the exception is the index error
    whenever no line has the key [ec] or [metacyc]. *)
Theorem trailing_lines_raise (fs : filesystem) (pl text : string) :
  fs pl = Some text ->
  unterminated (stripped_lines text) = true ->
  (exists e, convert_pl_input_to_rxn_df fs pl = Raise e)
  /\ (forallb no_lower_key (stripped_lines text) = true ->
      convert_pl_input_to_rxn_df fs pl = Raise IndexError).
Proof.
  intros Hfs Hterm. rewrite (convert_pl_input_to_rxn_df_eq fs pl text Hfs).
  destruct (parse_pl_lines_unterminated _ Hterm) as (e & He).
  rewrite He. split; [exists e; reflexivity|].
  intro Hlow. rewrite (parse_pl_lines_index_error _ e Hlow He). reflexivity.
Qed.

Lemma trailing_lines_raise_witness :
  convert_pl_input_to_rxn_df (one_file "0.pf" (sample_pf ++ NL)) "0.pf"
  = Raise IndexError.
Proof.
  apply (trailing_lines_raise (one_file "0.pf" (sample_pf ++ NL)) "0.pf"
           (sample_pf ++ NL) eq_refl); vm_compute; reflexivity.
Defined.

(* ================================================================== *)
(** ** Properties of the key extraction                                *)
(* ================================================================== *)

(** C3, on the code: the search for the tab starts at the second character
    (line 13 sets [end_idx = 1]), so a tab in first position is passed over.
    The line [<TAB>x<TAB>y] has its first tab at position 0, and the key
    returned is [<TAB>x], not the empty text before that tab; the line
    [<TAB>xy] contains a tab and the call raises the index error. *)
Theorem leading_tab_not_first_tab :
  tab_index leading_tab_line = Some 0
  /\ convert_rxn_row_list_format leading_tab_line
     = Return ((TAB ++ "x")%string, leading_tab_line)
  /\ contains_tab (TAB ++ "xy") = true
  /\ convert_rxn_row_list_format (TAB ++ "xy") = Raise IndexError.
Proof. repeat split; vm_compute; reflexivity. Qed.

(** What C3 says holds for every line whose first character is no tab: the
    line is split at its first tab, into the text before that tab and the
    whole line. *)
Lemma split_at_first_tab (line : string) (n : nat) :
  tab_index line = Some (S n) ->
  convert_rxn_row_list_format line = Return (prefix_to (S n) line, line)
  /\ contains_tab (prefix_to (S n) line) = false
  /\ exists rest, line = (prefix_to (S n) line ++ TAB ++ rest)%string.
Proof.
  intro H. rewrite convert_rxn_row_list_format_eq.
  destruct (tab_index_split line (S n) H) as (rest & Hrest & Hkey).
  destruct line as [|c r]; [discriminate|]. simpl in H.
  destruct (Ascii.eqb c tab); [discriminate|].
  destruct (tab_index r) as [j|]; [|discriminate]. injection H as ->.
  split; [reflexivity|]. split; [exact Hkey|]. exists rest. exact Hrest.
Qed.

(* ================================================================== *)
(** ** Properties of the contig-bin loader                             *)
(* ================================================================== *)

Section ContigMagMapFacts.

Variable read_csv : string -> outcome DataFrame.
Variable contig_mag_map : string.

(** Whatever the reader raises, the loader returns the empty relation. *)
Lemma contig_mag_map_reader_raises (e : exn) :
  read_csv contig_mag_map = Raise e ->
  convert_contig_mag_map_to_df read_csv contig_mag_map = Return empty_relation.
Proof.
  intro H. unfold convert_contig_mag_map_to_df. rewrite H. reflexivity.
Qed.

(** A table the reader accepts is relabelled outside the [try]: with a
    number of columns other than two the assignment raises. *)
Lemma contig_mag_map_wrong_width (df : DataFrame) :
  read_csv contig_mag_map = Return df ->
  List.length (columns df) <> 2 ->
  convert_contig_mag_map_to_df read_csv contig_mag_map = Raise ValueError.
Proof.
  intros H Hw. unfold convert_contig_mag_map_to_df, set_columns. rewrite H.
  cbn [bind List.length].
  destruct (Nat.eqb 2 (List.length (columns df))) eqn:E; [|reflexivity].
  apply Nat.eqb_eq in E. congruence.
Qed.

(** A table of two columns is returned with its columns named and swapped. *)
Lemma contig_mag_map_two_columns (c0 c1 : label) (table : list (list cell)) :
  read_csv contig_mag_map = Return (mkDataFrame [c0; c1] table) ->
  convert_contig_mag_map_to_df read_csv contig_mag_map =
  Return (mkDataFrame [LName "BIN_ID"; LName "CONTIG_ID"]
            (map (fun r => [nth 1 r None; nth 0 r None]) table)).
Proof.
  intro H. unfold convert_contig_mag_map_to_df. rewrite H. reflexivity.
Qed.

End ContigMagMapFacts.

(** The absent file and the empty file give the empty relation. *)
Lemma contig_mag_map_absent_or_empty :
  convert_contig_mag_map_to_df (read_tsv (fun _ => None)) "contig_info.tsv"
    = Return empty_relation
  /\ convert_contig_mag_map_to_df
       (read_tsv (one_file "contig_info.tsv" EmptyString)) "contig_info.tsv"
    = Return empty_relation.
Proof. split; vm_compute; reflexivity. Qed.

(** C2, on the code: a contig-bin table with one column, or with three, is
    malformed; the reader accepts it, and the loader raises [ValueError]
    where the relabelling follows the [try] (line 99) instead of returning
    the empty relation. *)
Theorem contig_mag_map_wrong_columns :
  (exists df, read_tsv (one_file "contig_info.tsv" one_column_table) "contig_info.tsv"
              = Return df /\ List.length (columns df) = 1)
  /\ convert_contig_mag_map_to_df
       (read_tsv (one_file "contig_info.tsv" one_column_table)) "contig_info.tsv"
     = Raise ValueError
  /\ (exists df, read_tsv (one_file "contig_info.tsv" three_column_table)
                         "contig_info.tsv"
                 = Return df /\ List.length (columns df) = 3)
  /\ convert_contig_mag_map_to_df
       (read_tsv (one_file "contig_info.tsv" three_column_table)) "contig_info.tsv"
     = Raise ValueError.
Proof.
  split; [eexists; split; vm_compute; reflexivity|].
  split; [vm_compute; reflexivity|].
  split; [eexists; split; vm_compute; reflexivity | vm_compute; reflexivity].
Qed.

(* ================================================================== *)
(** ** Properties of the duplicate-ORF loader                          *)
(* ================================================================== *)

Lemma convert_duplicate_orf_map_to_list_eq (fs : filesystem) (path : string) :
  convert_duplicate_orf_map_to_list fs path =
  bind (open_lines fs path) (fun lines => Return (duplicate_groups lines)).
Proof.
  unfold convert_duplicate_orf_map_to_list.
  destruct (open_lines fs path) as [lines| |]; cbn [bind]; try reflexivity.
  pose proof (prefix_group_loop
                (map (fun line => split_tab (rstrip line)) (filter contains_tab lines))
                []) as H.
  cbn [app List.length] in H. rewrite H.
  unfold duplicate_groups, duplicate_group. rewrite map_map. reflexivity.
Qed.


Example duplicate_orf_map_sample :
  convert_duplicate_orf_map_to_list
    (one_file "orf_map.txt"
       (text_of ["# duplicates"; ("O_1" ++ TAB ++ "O_7" ++ TAB ++ "O_9")%string;
                 EmptyString; ("O_2" ++ TAB ++ "O_3")%string]))
    "orf_map.txt"
  = Return [ [entry "ID" "O_1"; entry "ID" "O_7"; entry "ID" "O_9"];
             [entry "ID" "O_2"; entry "ID" "O_3"] ].
Proof. vm_compute. reflexivity. Qed.

Lemma duplicate_groups_app (l1 l2 : list string) :
  duplicate_groups (l1 ++ l2) = duplicate_groups l1 ++ duplicate_groups l2.
Proof. unfold duplicate_groups. rewrite filter_app, map_app. reflexivity. Qed.

Lemma rstrip_no_tab (s : string) :
  contains_tab s = false -> contains_tab (rstrip s) = false.
Proof.
  induction s as [|c r IH]; simpl; intro H; [reflexivity|].
  apply orb_false_iff in H as [Hc Hr]. specialize (IH Hr).
  destruct (rstrip r) as [|d r'].
  - destruct (isspace c); simpl; [reflexivity | rewrite Hc; reflexivity].
  - cbn [contains_tab] in *. rewrite Hc, IH. reflexivity.
Qed.

Lemma rstrip_append_space (s ws : string) :
  rstrip ws = EmptyString -> rstrip (s ++ ws) = rstrip s.
Proof.
  intro H. induction s as [|c r IH]; simpl; [exact H | rewrite IH; reflexivity].
Qed.

(** A line made of an identifier without tab, a tab and the newline has a
    tab, and none once stripped. *)
Lemma identifier_tab_newline (orf : string) :
  contains_tab orf = false ->
  contains_tab (orf ++ TAB ++ NL) = true
  /\ rstrip (orf ++ TAB ++ NL) = rstrip orf
  /\ contains_tab (rstrip (orf ++ TAB ++ NL)) = false.
Proof.
  intro H. split; [|split].
  - induction orf as [|c r IH]; [reflexivity|].
    simpl in *. apply orb_false_iff in H as [Hc Hr]. rewrite Hc. apply IH. exact Hr.
  - apply rstrip_append_space. reflexivity.
  - rewrite rstrip_append_space by reflexivity. apply rstrip_no_tab. exact H.
Qed.

(** C10. The tab test of the loader reads the raw line, before the trailing
    whitespace is stripped: a line that has a tab but none once stripped
    (its only tabs are trailing) is kept, and gives a group of one element,
    the prefixed identifier, with no duplicate. *)
Theorem trailing_tab_line_kept (fs : filesystem) (duplicate_orf_map text : string)
    (before after : list string) (line : string) :
  fs duplicate_orf_map = Some text ->
  iter_lines (universal_newlines text) = before ++ line :: after ->
  contains_tab line = true ->
  contains_tab (rstrip line) = false ->
  convert_duplicate_orf_map_to_list fs duplicate_orf_map =
  Return (duplicate_groups before
          ++ [(ID_TAB ++ rstrip line)%string] :: duplicate_groups after).
Proof.
  intros Hfs Hlines Htab Hstripped.
  rewrite convert_duplicate_orf_map_to_list_eq. unfold open_lines.
  rewrite Hfs. cbn [bind]. rewrite Hlines, duplicate_groups_app. do 2 f_equal.
  change (line :: after) with ([line] ++ after). rewrite duplicate_groups_app.
  cbn [app]. f_equal. unfold duplicate_groups, duplicate_group. cbn [filter].
  rewrite Htab. cbn [map]. rewrite (split_tab_no_tab _ Hstripped). reflexivity.
Qed.

Lemma trailing_tab_line_kept_witness :
  convert_duplicate_orf_map_to_list
    (one_file "orf_map.txt" trailing_tab_orf_map) "orf_map.txt"
  = Return [ [entry "ID" "O_5"]; [entry "ID" "O_2"; entry "ID" "O_3"] ].
Proof.
  apply (trailing_tab_line_kept
           (one_file "orf_map.txt" trailing_tab_orf_map)
           "orf_map.txt" trailing_tab_orf_map
           [("# duplicates" ++ NL)%string] [("O_2" ++ TAB ++ "O_3" ++ NL)%string]
           ("O_5" ++ TAB ++ NL)%string); vm_compute; reflexivity.
Defined.

(* ================================================================== *)
(** ** Further properties of the key extraction                        *)
(* ================================================================== *)

(** X1. The key extraction raises exactly on the lines that are empty or
    have no tab after their first character; what it raises is the index
    error; on every other line it returns, and the second component is the
    line itself. *)
Theorem key_extraction_raises_iff (rxn_row : string) :
  (convert_rxn_row_list_format rxn_row = Raise IndexError <-> has_key rxn_row = false)
  /\ (forall e, convert_rxn_row_list_format rxn_row = Raise e -> e = IndexError)
  /\ (has_key rxn_row = true <->
      exists key, convert_rxn_row_list_format rxn_row = Return (key, rxn_row)).
Proof.
  rewrite convert_rxn_row_list_format_row_key, row_key_has_key.
  destruct (row_key rxn_row) as [k|]; repeat split; try discriminate; try congruence.
  - intros _. exists k. reflexivity.
  - intros (key & H). discriminate.
Qed.

(** X2. What the key extraction returns: the whole line as second
    component, and as key a non-empty text that the line continues with a
    tab; past its first character the key has no tab, so the split is at
    the first tab found from the second character on. *)
Theorem key_extraction_result (rxn_row key full : string) :
  convert_rxn_row_list_format rxn_row = Return (key, full) ->
  full = rxn_row
  /\ key <> EmptyString
  /\ (exists rest, rxn_row = (key ++ TAB ++ rest)%string)
  /\ (exists c k, key = String c k /\ contains_tab k = false).
Proof.
  rewrite convert_rxn_row_list_format_row_key.
  destruct (row_key rxn_row) as [k0|] eqn:E; [|discriminate].
  intro H; injection H as <- <-.
  destruct (row_key_split rxn_row k0 E) as (c & k & rest & -> & Hk & Hl).
  split; [reflexivity|]. split; [discriminate|].
  split; [exists rest; exact Hl | exists c, k; split; [reflexivity | exact Hk]].
Qed.

Lemma key_extraction_result_witness :
  exists rest, entry "PRODUCT-TYPE" "P" = ("PRODUCT-TYPE" ++ TAB ++ rest)%string.
Proof.
  apply (key_extraction_result (entry "PRODUCT-TYPE" "P") "PRODUCT-TYPE"
           (entry "PRODUCT-TYPE" "P")).
  vm_compute. reflexivity.
Defined.

(* ================================================================== *)
(** ** Stripped lines                                                  *)
(* ================================================================== *)

Lemma rstrip_blank (s : string) : rstrip s = EmptyString <-> blank s = true.
Proof.
  induction s as [|c r IH]; simpl; [tauto|].
  destruct (rstrip r) as [|d r'].
  - destruct (isspace c); simpl; [tauto|].
    split; discriminate.
  - split; [discriminate|]. rewrite andb_true_iff. intros [_ H].
    apply IH in H. discriminate.
Qed.



(** X3. A line with a key and an empty value makes the parser fail: the
    stripping of the line removes the tab with the trailing whitespace, and
    the key extraction finds no tab in what is left. *)
Theorem empty_value_line_raises (fs : filesystem) (pl text key ws : string) :
  fs pl = Some text ->
  In (key ++ TAB ++ ws)%string (iter_lines (universal_newlines text)) ->
  contains_tab key = false ->
  blank ws = true ->
  rstrip key <> "//" ->
  exists e, convert_pl_input_to_rxn_df fs pl = Raise e.
Proof.
  intros Hfs Hin Hkey Hws Hterm.
  assert (Hstrip : rstrip (key ++ TAB ++ ws) = rstrip key).
  { apply rstrip_append_space. apply rstrip_blank. simpl. exact Hws. }
  assert (Hline : In (rstrip key) (stripped_lines text)).
  { unfold stripped_lines. rewrite <- Hstrip. apply in_map. exact Hin. }
  rewrite (convert_pl_input_to_rxn_df_eq fs pl text Hfs).
  destruct (parse_pl_lines (stripped_lines text)) as [r|e|] eqn:E.
  - exfalso. apply parse_pl_lines_return_inv in E as (_ & Hkeys & _).
    pose proof (proj1 (forallb_forall _ _) Hkeys _ Hline) as Hk. cbv beta in Hk.
    apply orb_true_iff in Hk as [Hk|Hk].
    + unfold is_terminator in Hk. apply String.eqb_eq in Hk. contradiction.
    + apply has_key_contains_tab in Hk.
      rewrite (rstrip_no_tab key Hkey) in Hk. discriminate.
  - exists e. reflexivity.
  - apply parse_pl_lines_has_fuel in E. contradiction.
Qed.

Lemma empty_value_line_raises_witness :
  exists e, convert_pl_input_to_rxn_df (one_file "0.pf" empty_value_pf) "0.pf" = Raise e.
Proof.
  apply (empty_value_line_raises (one_file "0.pf" empty_value_pf) "0.pf"
           empty_value_pf "NAME" NL eq_refl).
  - vm_compute. right. left. reflexivity.
  - reflexivity.
  - reflexivity.
  - vm_compute. discriminate.
Defined.

(* ================================================================== *)
(** ** Further properties of the PF parser                             *)
(* ================================================================== *)

Lemma count_terminators_blocks (blocks : list (list string)) :
  well_formed_blocks blocks = true ->
  count_terminators (pf_lines_of blocks) = List.length blocks.
Proof.
  unfold count_terminators, well_formed_blocks.
  induction blocks as [|body bs IH]; simpl; intro H; [reflexivity|].
  apply andb_true_iff in H as [Hbody Hbs].
  rewrite !filter_app, !length_app, (IH Hbs). simpl.
  replace (filter is_terminator body) with (@nil string); [reflexivity|].
  symmetry. unfold no_terminator in Hbody.
  induction body as [|line rest IHb]; simpl in *; [reflexivity|].
  apply andb_true_iff in Hbody as [Hl Hr]. apply negb_true_iff in Hl.
  rewrite Hl. apply IHb. exact Hr.
Qed.

(** X4. When the parser returns, the document has one record per [//]
    line of the input: as many rows as the stripped lines count
    terminators. *)
Theorem one_row_per_terminator (fs : filesystem) (pl text : string) (df : DataFrame) :
  fs pl = Some text ->
  convert_pl_input_to_rxn_df fs pl = Return df ->
  List.length (rows df) = count_terminators (stripped_lines text).
Proof.
  intros Hfs Hdf. rewrite (convert_pl_input_to_rxn_df_eq fs pl text Hfs) in Hdf.
  apply bind_return_inv in Hdf as (rxn_acc & Hacc & Hdf). injection Hdf as <-.
  apply parse_pl_lines_return_inv in Hacc as (Hterm & _ & Hrecs).
  destruct (split_blocks_spec (stripped_lines text)) as (Hl & Hwf & _).
  rewrite split_blocks_unterminated in Hterm.
  destruct (snd (split_blocks (stripped_lines text))); [|discriminate].
  rewrite app_nil_r in Hl. rewrite Hl at 1.
  rewrite (count_terminators_blocks _ Hwf).
  apply map_outcome_return, Forall2_length in Hrecs.
  unfold pf_frame, rename_columns, frame_of_records. cbn [rows].
  rewrite length_map. symmetry. exact Hrecs.
Qed.

Lemma one_row_per_terminator_witness :
  exists df, convert_pl_input_to_rxn_df (one_file "0.pf" sample_pf) "0.pf" = Return df
             /\ List.length (rows df) = 2.
Proof.
  destruct (convert_pl_input_to_rxn_df (one_file "0.pf" sample_pf) "0.pf")
    as [df| |] eqn:E; [|vm_compute in E; discriminate|vm_compute in E; discriminate].
  exists df. split; [reflexivity|].
  apply (one_row_per_terminator (one_file "0.pf" sample_pf) "0.pf" sample_pf df eq_refl E).
Defined.

Lemma well_formed_blocks_app (a b : list (list string)) :
  well_formed_blocks a = true -> well_formed_blocks b = true ->
  well_formed_blocks (a ++ b) = true.
Proof.
  unfold well_formed_blocks. intros Ha Hb. rewrite forallb_app, Ha, Hb. reflexivity.
Qed.

Lemma after_blocks_not_return (line : string) (trailing : list string)
    (acc acc' : list dict) :
  after_blocks (line :: trailing) acc <> Return acc'.
Proof.
  unfold after_blocks. destruct (block_record (line :: trailing)); discriminate.
Qed.

(** X5. Reading composes: after lines that end with a terminator (or no
    line at all) the two loops go on as on the remaining lines alone, so
    the records of a concatenation are the records of the first part
    followed by those of the second, and the first exception met wins. *)
Theorem parse_pl_lines_app (first_lines more_lines : list string) :
  unterminated first_lines = false ->
  parse_pl_lines (first_lines ++ more_lines) =
  bind (parse_pl_lines first_lines) (fun recs1 =>
  bind (parse_pl_lines more_lines) (fun recs2 => Return (recs1 ++ recs2))).
Proof.
  intro Hterm. rewrite split_blocks_unterminated in Hterm.
  destruct (split_blocks_spec first_lines) as (H1 & Hwf1 & _).
  destruct (split_blocks_spec more_lines) as (H2 & Hwf2 & Htr2).
  destruct (snd (split_blocks first_lines)); [|discriminate].
  rewrite app_nil_r in H1.
  set (b1 := fst (split_blocks first_lines)) in *.
  set (b2 := fst (split_blocks more_lines)) in *.
  set (t2 := snd (split_blocks more_lines)) in *.
  rewrite H1, H2, app_assoc, <- pf_lines_of_app.
  rewrite (parse_pl_lines_blocks (b1 ++ b2) t2 (well_formed_blocks_app _ _ Hwf1 Hwf2) Htr2).
  rewrite (parse_pl_lines_blocks b2 t2 Hwf2 Htr2).
  rewrite <- (app_nil_r (pf_lines_of b1)).
  rewrite (parse_pl_lines_blocks b1 [] Hwf1 eq_refl).
  rewrite map_outcome_app.
  destruct (map_outcome block_record b1) as [r1| |]; cbn [bind after_blocks]; try reflexivity.
  destruct (map_outcome block_record b2) as [r2| |]; cbn [bind]; try reflexivity.
  destruct t2 as [|line tr]; [reflexivity|].
  unfold after_blocks. destruct (block_record (line :: tr)); reflexivity.
Qed.

Lemma parse_pl_lines_app_witness :
  parse_pl_lines (pf_lines_of sample_blocks ++ no_id_lines) =
  bind (parse_pl_lines (pf_lines_of sample_blocks)) (fun recs1 =>
  bind (parse_pl_lines no_id_lines) (fun recs2 => Return (recs1 ++ recs2))).
Proof.
  apply (parse_pl_lines_app (pf_lines_of sample_blocks) no_id_lines).
  vm_compute. reflexivity.
Defined.

Lemma rxn_entry_values (P : string -> Prop) (t t' : dict) (line : string) :
  P line ->
  (forall k v, dict_get t k = Some (PyStr v) -> P v /\ row_key v = Some k) ->
  (forall k l, dict_get t k = Some (PyList l) ->
     (k = "ec" /\ Forall (fun v => P v /\ row_key v = Some "EC") l)
     \/ (k = "metacyc" /\ Forall (fun v => P v /\ row_key v = Some "METACYC") l)) ->
  rxn_entry t line = Return t' ->
  (forall k v, dict_get t' k = Some (PyStr v) -> P v /\ row_key v = Some k)
  /\ (forall k l, dict_get t' k = Some (PyList l) ->
        (k = "ec" /\ Forall (fun v => P v /\ row_key v = Some "EC") l)
        \/ (k = "metacyc" /\ Forall (fun v => P v /\ row_key v = Some "METACYC") l)).
Proof.
  intros HP Hstr Hlist. rewrite rxn_entry_eq.
  destruct (row_key line) as [key|] eqn:Ekey; [|discriminate].
  destruct (String.eqb key "EC") eqn:E1.
  { apply String.eqb_eq in E1; subst key. intro H.
    apply dict_append_return in H as (l0 & Hl0 & ->).
    destruct (Hlist "ec" l0 Hl0) as [[_ Hall]|[Hk _]]; [|discriminate].
    split; intros k x Hx; (destruct (string_dec "ec" k) as [<-|Hne];
      [rewrite dict_get_set_same in Hx | rewrite dict_get_set_other in Hx by exact Hne]).
    - discriminate.
    - apply (Hstr k x Hx).
    - injection Hx as <-. left. split; [reflexivity|].
      apply Forall_app. split; [exact Hall|]. constructor; [|constructor].
      split; assumption.
    - apply (Hlist k x Hx). }
  destruct (String.eqb key "METACYC") eqn:E2.
  { apply String.eqb_eq in E2; subst key. intro H.
    apply dict_append_return in H as (l0 & Hl0 & ->).
    destruct (Hlist "metacyc" l0 Hl0) as [[Hk _]|[_ Hall]]; [discriminate|].
    split; intros k x Hx; (destruct (string_dec "metacyc" k) as [<-|Hne];
      [rewrite dict_get_set_same in Hx | rewrite dict_get_set_other in Hx by exact Hne]).
    - discriminate.
    - apply (Hstr k x Hx).
    - injection Hx as <-. right. split; [reflexivity|].
      apply Forall_app. split; [exact Hall|]. constructor; [|constructor].
      split; assumption.
    - apply (Hlist k x Hx). }
  intro H; injection H as <-.
  split; intros k x Hx; (destruct (string_dec key k) as [<-|Hne];
    [rewrite dict_get_set_same in Hx | rewrite dict_get_set_other in Hx by exact Hne]).
  - injection Hx as <-. split; assumption.
  - apply (Hstr k x Hx).
  - discriminate.
  - apply (Hlist k x Hx).
Qed.

Lemma build_record_values (P : string -> Prop) (body : list string) :
  forall t t',
  (forall line, In line body -> P line) ->
  (forall k v, dict_get t k = Some (PyStr v) -> P v /\ row_key v = Some k) ->
  (forall k l, dict_get t k = Some (PyList l) ->
     (k = "ec" /\ Forall (fun v => P v /\ row_key v = Some "EC") l)
     \/ (k = "metacyc" /\ Forall (fun v => P v /\ row_key v = Some "METACYC") l)) ->
  build_record t body = Return t' ->
  (forall k v, dict_get t' k = Some (PyStr v) -> P v /\ row_key v = Some k)
  /\ (forall k l, dict_get t' k = Some (PyList l) ->
        (k = "ec" /\ Forall (fun v => P v /\ row_key v = Some "EC") l)
        \/ (k = "metacyc" /\ Forall (fun v => P v /\ row_key v = Some "METACYC") l)).
Proof.
  induction body as [|line rest IH]; simpl; intros t t' HP Hstr Hlist H.
  - injection H as <-. split; assumption.
  - apply bind_return_inv in H as (t1 & H1 & H2).
    destruct (rxn_entry_values P t t1 line (HP line (or_introl eq_refl)) Hstr Hlist H1)
      as (Hstr1 & Hlist1).
    apply (IH t1 t'); try assumption.
    intros l Hl. apply HP. right. exact Hl.
Qed.

Lemma row_key_convert (line k : string) :
  row_key line = Some k -> convert_rxn_row_list_format line = Return (k, line).
Proof.
  intro H. rewrite convert_rxn_row_list_format_row_key, H. reflexivity.
Qed.

(** X6. The values of a record are whole lines of its own block: a text
    stored under a key is a line of the block that the key extraction
    splits at that very key, and the sequences under [ec] and [metacyc] (the
    only sequences) hold lines of the block with the key [EC], respectively
    [METACYC]. A record never holds the mere value of a line, nor a line of
    another block. *)
Theorem record_values_are_block_lines (body : list string) (rec : dict) :
  block_record body = Return rec ->
  (forall k v, dict_get rec k = Some (PyStr v) ->
     In v body /\ convert_rxn_row_list_format v = Return (k, v))
  /\ (forall k l, dict_get rec k = Some (PyList l) ->
        (k = "ec"
         /\ Forall (fun v => In v body
                             /\ convert_rxn_row_list_format v = Return ("EC", v)) l)
        \/ (k = "metacyc"
            /\ Forall (fun v => In v body
                                /\ convert_rxn_row_list_format v = Return ("METACYC", v)) l)).
Proof.
  intro H.
  destruct (build_record_values (fun v => In v body) body temp_rxn_init rec) as (Hs & Hl).
  - intros line Hin. exact Hin.
  - intros k v Hk. exfalso. unfold temp_rxn_init in Hk. cbn [dict_get] in Hk.
    destruct (String.eqb "ec" k); [discriminate|].
    destruct (String.eqb "metacyc" k); discriminate.
  - intros k l Hk. unfold temp_rxn_init in Hk. cbn [dict_get] in Hk.
    destruct (String.eqb "ec" k) eqn:E1.
    { apply String.eqb_eq in E1. injection Hk as <-. left. split; [auto | constructor]. }
    destruct (String.eqb "metacyc" k) eqn:E2; [|discriminate].
    apply String.eqb_eq in E2. injection Hk as <-. right. split; [auto | constructor].
  - exact H.
  - split.
    + intros k v Hk. destruct (Hs k v Hk) as [Hin Hkey].
      split; [exact Hin | apply row_key_convert; exact Hkey].
    + intros k l Hk. destruct (Hl k l Hk) as [[-> Hall]|[-> Hall]]; [left|right];
        (split; [reflexivity|]); revert Hall; apply Forall_impl;
        intros v [Hin Hkey]; (split; [exact Hin | apply row_key_convert; exact Hkey]).
Qed.

Lemma record_values_are_block_lines_witness :
  In (entry "NAME" "second") (nth 0 sample_blocks [])
  /\ convert_rxn_row_list_format (entry "NAME" "second")
     = Return ("NAME", entry "NAME" "second").
Proof.
  assert (H : block_record (nth 0 sample_blocks []) =
              Return [("ec", PyList [entry "EC" "1.1.1.1"; entry "EC" "2.7.1.1"]);
                      ("metacyc", PyList []);
                      ("ID", PyStr (entry "ID" "O_1"));
                      ("NAME", PyStr (entry "NAME" "second"))])
    by (vm_compute; reflexivity).
  apply (proj1 (record_values_are_block_lines _ _ H) "NAME" (entry "NAME" "second")).
  vm_compute. reflexivity.
Defined.

(** The last line with an ordinary key is the one a block keeps, whatever
    else the block holds. *)
Lemma build_record_last (k : string) (body : list string) :
  ordinary_key k = true ->
  forall t t', build_record t body = Return t' ->
  dict_get t' k = match last_keyed k body with
                  | Some l => Some (PyStr l)
                  | None => dict_get t k
                  end.
Proof.
  intro Hk. pose proof (ordinary_key_inv k Hk) as (K1 & K2 & K3 & K4 & K5 & K6).
  induction body as [|line rest IH]; simpl; intros t t' H.
  - injection H as <-. reflexivity.
  - apply bind_return_inv in H as (t1 & H1 & H2).
    rewrite (IH t1 t' H2), last_keyed_cons.
    destruct (last_keyed k rest); [reflexivity|].
    rewrite rxn_entry_eq in H1.
    destruct (row_key line) as [key|] eqn:Ekey; [|discriminate].
    destruct (String.eqb key "EC") eqn:E1.
    { apply String.eqb_eq in E1; subst key.
      apply dict_append_return in H1 as (l & _ & ->).
      rewrite (row_key_not_keyed line "EC" k Ekey K1 K2) by congruence.
      apply dict_get_set_other. congruence. }
    destruct (String.eqb key "METACYC") eqn:E2.
    { apply String.eqb_eq in E2; subst key.
      apply dict_append_return in H1 as (l & _ & ->).
      rewrite (row_key_not_keyed line "METACYC" k Ekey K1 K2) by congruence.
      apply dict_get_set_other. congruence. }
    injection H1 as <-. destruct (string_dec key k) as [->|Hne].
    + rewrite (row_key_keyed line k Ekey). apply dict_get_set_same.
    + rewrite (row_key_not_keyed line key k Ekey K1 K2 Hne).
      apply dict_get_set_other. exact Hne.
Qed.

(** X7. In every block the parser accepts, lines with the keys [ec] and
    [metacyc] included, a key other than [EC], [METACYC], [ec] and
    [metacyc] holds the last line of the block that carries it, and is
    absent from the record when no line does. *)
Theorem last_line_wins (body : list string) (rec : dict) (k : string) :
  block_record body = Return rec ->
  ordinary_key k = true ->
  dict_get rec k = option_map PyStr (last_keyed k body).
Proof.
  intros H Hk. rewrite (build_record_last k body Hk temp_rxn_init rec H).
  destruct (last_keyed k body); [reflexivity|].
  apply ordinary_key_inv in Hk as (_ & _ & _ & _ & K5 & K6).
  apply temp_rxn_init_other; assumption.
Qed.

Lemma last_line_wins_witness :
  dict_get [("ec", PyStr (entry "ec" "x")); ("metacyc", PyList []);
            ("NAME", PyStr (entry "NAME" "b"))] "NAME"
  = Some (PyStr (entry "NAME" "b")).
Proof.
  apply (last_line_wins [entry "NAME" "a"; entry "ec" "x"; entry "NAME" "b"]
           [("ec", PyStr (entry "ec" "x")); ("metacyc", PyList []);
            ("NAME", PyStr (entry "NAME" "b"))] "NAME");
    vm_compute; reflexivity.
Defined.

(* ================================================================== *)
(** ** The columns of the document                                     *)
(* ================================================================== *)

Lemma dict_keys_set (d : dict) (k : string) (v : pyval) :
  exists extra, dict_keys (dict_set d k v) = dict_keys d ++ extra.
Proof.
  induction d as [|[k' v'] d (extra & IH)]; simpl.
  - exists [k]. reflexivity.
  - destruct (String.eqb k' k); simpl.
    + exists []. rewrite app_nil_r. reflexivity.
    + exists extra. f_equal. exact IH.
Qed.

Lemma rxn_entry_keys (t t' : dict) (line : string) :
  rxn_entry t line = Return t' -> exists extra, dict_keys t' = dict_keys t ++ extra.
Proof.
  rewrite rxn_entry_eq. destruct (row_key line) as [key|]; [|discriminate].
  destruct (String.eqb key "EC").
  { intro H. apply dict_append_return in H as (l & _ & ->). apply dict_keys_set. }
  destruct (String.eqb key "METACYC").
  { intro H. apply dict_append_return in H as (l & _ & ->). apply dict_keys_set. }
  intro H; injection H as <-. apply dict_keys_set.
Qed.

Lemma build_record_keys (body : list string) :
  forall t t', build_record t body = Return t' ->
  exists extra, dict_keys t' = dict_keys t ++ extra.
Proof.
  induction body as [|line rest IH]; simpl; intros t t' H.
  - injection H as <-. exists []. rewrite app_nil_r. reflexivity.
  - apply bind_return_inv in H as (t1 & H1 & H2).
    destruct (rxn_entry_keys t t1 line H1) as (e1 & E1).
    destruct (IH t1 t' H2) as (e2 & E2).
    exists (e1 ++ e2). rewrite E2, E1, app_assoc. reflexivity.
Qed.

Lemma add_key_extends (ks acc : list string) :
  exists more, fold_left add_key ks acc = acc ++ more.
Proof.
  revert acc; induction ks as [|k ks IH]; simpl; intro acc.
  - exists []. rewrite app_nil_r. reflexivity.
  - unfold add_key at 2. destruct (existsb (String.eqb k) acc).
    + apply IH.
    + destruct (IH (acc ++ [k])) as (more & Hm).
      exists (k :: more). rewrite Hm, <- app_assoc. reflexivity.
Qed.

Lemma union_keys_extends (recs : list dict) (acc : list string) :
  exists more,
    fold_left (fun acc d => fold_left add_key (dict_keys d) acc) recs acc = acc ++ more.
Proof.
  revert acc; induction recs as [|d recs IH]; simpl; intro acc.
  - exists []. rewrite app_nil_r. reflexivity.
  - destruct (add_key_extends (dict_keys d) acc) as (m1 & H1).
    destruct (IH (acc ++ m1)) as (m2 & H2).
    exists (m1 ++ m2). rewrite H1, H2, app_assoc. reflexivity.
Qed.

(** X8. The columns of the document: a parse without record (an input
    without line) gives a frame without any column, [ec], [metacyc] and
    [ORF_ID] included; a parse with a record gives a frame whose first two
    columns are [ec] and [metacyc], in this order, whatever the blocks
    hold. *)
Theorem document_columns (fs : filesystem) (pl text : string) (df : DataFrame) :
  fs pl = Some text ->
  convert_pl_input_to_rxn_df fs pl = Return df ->
  (rows df = [] -> columns df = [] /\ stripped_lines text = [])
  /\ (rows df <> [] ->
      exists others, columns df = LName "ec" :: LName "metacyc" :: others).
Proof.
  intros Hfs Hdf. rewrite (convert_pl_input_to_rxn_df_eq fs pl text Hfs) in Hdf.
  apply bind_return_inv in Hdf as (rxn_acc & Hacc & Hdf). injection Hdf as <-.
  apply parse_pl_lines_return_inv in Hacc as (Hterm & _ & Hrecs).
  unfold pf_frame, rename_columns, frame_of_records. cbn [rows columns].
  destruct rxn_acc as [|rec recs].
  - split; [|intro H; contradiction H; reflexivity].
    intros _. split; [reflexivity|].
    destruct (split_blocks_spec (stripped_lines text)) as (Hl & _ & _).
    rewrite split_blocks_unterminated in Hterm.
    destruct (snd (split_blocks (stripped_lines text))); [|discriminate].
    apply map_outcome_return in Hrecs. inversion Hrecs as [Hb|]; subst.
    rewrite Hl, <- Hb. reflexivity.
  - split; [discriminate|]. intros _.
    apply map_outcome_return in Hrecs.
    inversion Hrecs as [|body rec' bs recs' Hbody _ Hb]; subst.
    destruct (build_record_keys body temp_rxn_init rec Hbody) as (extra & Hkeys).
    unfold union_keys. cbn [fold_left]. rewrite Hkeys. cbn [temp_rxn_init dict_keys map fst app fold_left].
    change (add_key (add_key [] "ec") "metacyc") with ["ec"; "metacyc"].
    destruct (add_key_extends extra ["ec"; "metacyc"]) as (m1 & H1). rewrite H1.
    destruct (union_keys_extends recs (["ec"; "metacyc"] ++ m1)) as (m2 & H2).
    rewrite H2. cbn [app map]. eexists. reflexivity.
Qed.

Lemma document_columns_witness :
  exists df others,
    convert_pl_input_to_rxn_df (one_file "0.pf" sample_pf) "0.pf" = Return df
    /\ columns df = LName "ec" :: LName "metacyc" :: others.
Proof.
  destruct (convert_pl_input_to_rxn_df (one_file "0.pf" sample_pf) "0.pf")
    as [df| |] eqn:E; [|vm_compute in E; discriminate|vm_compute in E; discriminate].
  destruct (document_columns (one_file "0.pf" sample_pf) "0.pf" sample_pf df eq_refl E)
    as [_ H].
  destruct H as (others & Hcols).
  - injection E as <-. vm_compute. discriminate.
  - exists df, others. split; [reflexivity | exact Hcols].
Defined.

(* ================================================================== *)
(** ** The PF parser and the duplicate-ORF loader together             *)
(* ================================================================== *)

(** X13. The two loaders agree on the name of an ORF. When the block of
    row [i] has [ID<TAB>x] as its last [ID] line and a line of the
    duplicate-ORF table has [x] as first field, the loader of the table
    returns a group whose first field is, character for character, the text
    the document holds under [ORF_ID] in row [i]: the group can be matched
    against the records by plain equality. *)
Theorem orf_id_matches_duplicate_field
    (fs : filesystem) (pl text duplicate_orf_map x : string) (df : DataFrame)
    (i : nat) (body lines : list string) (line : string) (duplicates : list string) :
  fs pl = Some text ->
  convert_pl_input_to_rxn_df fs pl = Return df ->
  nth_error (fst (split_blocks (stripped_lines text))) i = Some body ->
  last_keyed "ID" body = Some (entry "ID" x) ->
  open_lines fs duplicate_orf_map = Return lines ->
  In line lines ->
  contains_tab line = true ->
  split_tab (rstrip line) = x :: duplicates ->
  exists groups others,
    convert_duplicate_orf_map_to_list fs duplicate_orf_map = Return groups
    /\ In (entry "ID" x :: others) groups
    /\ existsb (cell_is_str (entry "ID" x)) (cells_at df i "ORF_ID") = true.
Proof.
  intros Hfs Hdf Hi Hlast Hopen Hin Htab Hsplit.
  exists (duplicate_groups lines), (map (String.append ID_TAB) duplicates).
  split; [rewrite convert_duplicate_orf_map_to_list_eq, Hopen; reflexivity|].
  split.
  - unfold duplicate_groups. apply in_map_iff. exists line. split.
    + unfold duplicate_group. rewrite Hsplit. reflexivity.
    + apply filter_In. split; assumption.
  - rewrite (convert_pl_input_to_rxn_df_eq fs pl text Hfs) in Hdf.
    apply bind_return_inv in Hdf as (rxn_acc & Hacc & Hdf). injection Hdf as <-.
    apply parse_pl_lines_return_inv in Hacc as (_ & _ & Hrecs).
    apply map_outcome_return in Hrecs.
    destruct (Forall2_nth_error _ _ _ i body Hrecs Hi) as (rec & Hrec & Hbody).
    apply (pf_frame_field rxn_acc i rec "ID" "ORF_ID" (PyStr (entry "ID" x)));
      [exact Hrec | | reflexivity | apply String.eqb_refl].
    unfold block_record in Hbody.
    rewrite (build_record_last "ID" body eq_refl temp_rxn_init rec Hbody), Hlast.
    reflexivity.
Qed.

Lemma orf_id_matches_duplicate_field_witness :
  exists groups others,
    convert_duplicate_orf_map_to_list sample_run "orf_map.txt" = Return groups
    /\ In (entry "ID" "O_2" :: others) groups.
Proof.
  destruct (convert_pl_input_to_rxn_df sample_run "0.pf")
    as [df| |] eqn:E; [|vm_compute in E; discriminate|vm_compute in E; discriminate].
  destruct (orf_id_matches_duplicate_field sample_run "0.pf" sample_pf "orf_map.txt"
              "O_2" df 1 (nth 1 sample_blocks [])
              (iter_lines (universal_newlines sample_orf_map))
              ("O_2" ++ TAB ++ "O_3" ++ TAB ++ "O_4" ++ NL)%string ["O_3"; "O_4"]
              eq_refl E)
    as (groups & others & Hg & Hin & _); try (vm_compute; reflexivity).
  - vm_compute. right. left. reflexivity.
  - exists groups, others. split; assumption.
Defined.

(* ================================================================== *)
(** ** Further properties of the duplicate-ORF loader                  *)
(* ================================================================== *)

Lemma split_tab_fields (s : string) :
  join_tab (split_tab s) = s
  /\ Forall (fun field => contains_tab field = false) (split_tab s).
Proof.
  induction s as [|c r (IHj & IHf)]; simpl.
  - split; [reflexivity | repeat constructor].
  - destruct (Ascii.eqb c tab) eqn:Ec.
    + apply Ascii.eqb_eq in Ec. subst c. split.
      * pose proof (split_tab_not_nil r) as Hne.
        cbn [join_tab]. destruct (split_tab r) as [|f fs]; [congruence|].
        rewrite IHj. reflexivity.
      * constructor; [reflexivity | exact IHf].
    + pose proof (split_tab_not_nil r) as Hne.
      destruct (split_tab r) as [|f fs]; [congruence|].
      pose proof (Forall_inv IHf) as Hf. pose proof (Forall_inv_tail IHf) as Hfs.
      cbv beta in Hf. split.
      * cbn [join_tab] in *. destruct fs as [|g gs].
        -- rewrite IHj. reflexivity.
        -- simpl. f_equal. exact IHj.
      * constructor; [simpl; rewrite Ec, Hf; reflexivity | exact Hfs].
Qed.

(** X15. The groups carry the lines with a tab, one group per line and in
    the order of the file, and nothing of a line is lost but its trailing
    whitespace: the fields of a group, the prefix [ID<TAB>] apart, hold no
    tab and give back the stripped line when joined with tabs. *)
Theorem duplicate_groups_round_trip (fs : filesystem) (duplicate_orf_map : string)
    (lines : list string) :
  open_lines fs duplicate_orf_map = Return lines ->
  exists fields,
    convert_duplicate_orf_map_to_list fs duplicate_orf_map
      = Return (map (map (String.append ID_TAB)) fields)
    /\ Forall2 (fun line group_fields =>
                  join_tab group_fields = rstrip line
                  /\ Forall (fun field => contains_tab field = false) group_fields)
               (filter contains_tab lines) fields.
Proof.
  intro Hopen.
  exists (map (fun line => split_tab (rstrip line)) (filter contains_tab lines)).
  split.
  - rewrite convert_duplicate_orf_map_to_list_eq, Hopen. cbn [bind].
    unfold duplicate_groups, duplicate_group. rewrite map_map. reflexivity.
  - induction (filter contains_tab lines) as [|line rest IH]; simpl; constructor.
    + apply split_tab_fields.
    + exact IH.
Qed.

Lemma duplicate_groups_round_trip_witness :
  exists fields,
    convert_duplicate_orf_map_to_list sample_run "orf_map.txt"
      = Return (map (map (String.append ID_TAB)) fields)
    /\ List.length fields = 2.
Proof.
  destruct (duplicate_groups_round_trip sample_run "orf_map.txt"
              (iter_lines (universal_newlines sample_orf_map)) eq_refl)
    as (fields & Hf & Hall).
  exists fields. split; [exact Hf|].
  apply Forall2_length in Hall. rewrite <- Hall. vm_compute. reflexivity.
Defined.

(* ================================================================== *)
(** ** The two contig loaders                                          *)
(* ================================================================== *)

Section ContigLoaders.

Variable read_csv : string -> outcome DataFrame.
Variable path : string.

Lemma set_columns_cases (df : DataFrame) (names : list string) :
  (List.length (columns df) = List.length names
   /\ set_columns df names = Return (mkDataFrame (map LName names) (rows df)))
  \/ (List.length (columns df) <> List.length names
      /\ set_columns df names = Raise ValueError).
Proof.
  unfold set_columns.
  destruct (Nat.eqb (List.length names) (List.length (columns df))) eqn:E.
  - apply Nat.eqb_eq in E. left. split; [symmetry; exact E | reflexivity].
  - apply Nat.eqb_neq in E. right. split; [congruence | reflexivity].
Qed.

(** X9. The contig-bin loader never passes on what the reader raises, and
    raises itself in one case only: [ValueError], exactly when the reader
    returns a table whose number of columns is not two. *)
Theorem contig_mag_map_raises_iff (e : exn) :
  convert_contig_mag_map_to_df read_csv path = Raise e <->
  e = ValueError
  /\ exists df, read_csv path = Return df /\ List.length (columns df) <> 2.
Proof.
  split.
  - unfold convert_contig_mag_map_to_df.
    destruct (read_csv path) as [df|e'|]; cbn [bind]; [| |discriminate].
    + destruct (set_columns_cases df ["CONTIG_ID"; "BIN_ID"]) as [[_ ->]|[Hw ->]];
        cbn [bind].
      * vm_compute. discriminate.
      * intro H; injection H as <-. split; [reflexivity|].
        exists df. split; [reflexivity | exact Hw].
    + vm_compute. discriminate.
  - intros (-> & df & Hdf & Hw). apply (contig_mag_map_wrong_width _ _ df Hdf Hw).
Qed.

(** X10. What the contig-bin loader returns has the columns [BIN_ID] and
    [CONTIG_ID], in this order: no row when the reader raised, and otherwise
    the rows of the table read, in order, the second cell of each put
    before the first. *)
Theorem contig_mag_map_result (out : DataFrame) :
  convert_contig_mag_map_to_df read_csv path = Return out ->
  columns out = [LName "BIN_ID"; LName "CONTIG_ID"]
  /\ (((exists e, read_csv path = Raise e) /\ rows out = [])
      \/ (exists df, read_csv path = Return df
                     /\ List.length (columns df) = 2
                     /\ rows out = map (fun r => [nth 1 r None; nth 0 r None]) (rows df))).
Proof.
  unfold convert_contig_mag_map_to_df.
  destruct (read_csv path) as [df|e'|]; cbn [bind]; [| |discriminate].
  - destruct (set_columns_cases df ["CONTIG_ID"; "BIN_ID"]) as [[Hw ->]|[_ ->]];
      cbn [bind]; [|discriminate].
    intro H. vm_compute in H. injection H as <-. split; [reflexivity|].
    right. exists df. split; [reflexivity|]. split; [exact Hw | reflexivity].
  - intro H. vm_compute in H. injection H as <-. split; [reflexivity|].
    left. split; [exists e'|]; reflexivity.
Qed.

(** X11. The contig-contig loader passes on what the reader raises, and
    raises [ValueError] itself exactly when the table read has a number of
    columns other than three. *)
Theorem contig_contig_map_raises_iff (e : exn) :
  convert_contig_contig_map_to_df read_csv path = Raise e <->
  read_csv path = Raise e
  \/ (e = ValueError
      /\ exists df, read_csv path = Return df /\ List.length (columns df) <> 3).
Proof.
  unfold convert_contig_contig_map_to_df.
  destruct (read_csv path) as [df|e'|]; cbn [bind].
  - destruct (set_columns_cases df ["CONTIG_ID"; "CONTIG_ORIG_ID"; "CONT_LEN"])
      as [[Hw ->]|[Hw ->]]; cbn [bind].
    + split.
      * vm_compute. discriminate.
      * intros [H|(_ & df' & H & Hw')]; [discriminate|].
        injection H as <-. contradiction.
    + split.
      * intro H; injection H as <-. right. split; [reflexivity|].
        exists df. split; [reflexivity | exact Hw].
      * intros [H|(-> & _)]; [discriminate | reflexivity].
  - split.
    + intro H. left. exact H.
    + intros [H|(_ & df & H & _)]; [exact H | discriminate].
  - split; [discriminate|]. intros [H|(_ & df & H & _)]; discriminate.
Qed.

(** X12. What the contig-contig loader returns: the table read had three
    columns, and the result keeps its rows, in order, under the columns
    [CONTIG_ID] and [CONTIG_ORIG_ID], the first two cells of each row; the
    third column, the length, is dropped. *)
Theorem contig_contig_map_result (out : DataFrame) :
  convert_contig_contig_map_to_df read_csv path = Return out ->
  exists df,
    read_csv path = Return df
    /\ List.length (columns df) = 3
    /\ out = mkDataFrame [LName "CONTIG_ID"; LName "CONTIG_ORIG_ID"]
                         (map (fun r => [nth 0 r None; nth 1 r None]) (rows df)).
Proof.
  unfold convert_contig_contig_map_to_df.
  destruct (read_csv path) as [df|e'|]; cbn [bind]; [|discriminate|discriminate].
  destruct (set_columns_cases df ["CONTIG_ID"; "CONTIG_ORIG_ID"; "CONT_LEN"])
    as [[Hw ->]|[_ ->]]; cbn [bind]; [|discriminate].
  intro H. vm_compute in H. injection H as <-.
  exists df. split; [reflexivity|]. split; [exact Hw | reflexivity].
Qed.

End ContigLoaders.

Lemma contig_mag_map_result_witness :
  columns (mkDataFrame [LName "BIN_ID"; LName "CONTIG_ID"]
             [[Some (PyStr "bin_1"); Some (PyStr "c_0")];
              [Some (PyStr "bin_2"); Some (PyStr "c_1")]])
  = [LName "BIN_ID"; LName "CONTIG_ID"].
Proof.
  apply (contig_mag_map_result
           (read_tsv (one_file "contig_info.tsv" contig_bin_table)) "contig_info.tsv").
  vm_compute. reflexivity.
Defined.

Lemma contig_contig_map_result_witness :
  exists df,
    read_tsv (one_file "contig_map.tsv" contig_contig_table) "contig_map.tsv" = Return df
    /\ List.length (columns df) = 3
    /\ mkDataFrame [LName "CONTIG_ID"; LName "CONTIG_ORIG_ID"]
         [[Some (PyStr "c_0"); Some (PyStr "scaffold_12")];
          [Some (PyStr "c_1"); Some (PyStr "scaffold_40")]]
       = mkDataFrame [LName "CONTIG_ID"; LName "CONTIG_ORIG_ID"]
           (map (fun r => [nth 0 r None; nth 1 r None]) (rows df)).
Proof.
  apply (contig_contig_map_result
           (read_tsv (one_file "contig_map.tsv" contig_contig_table)) "contig_map.tsv").
  vm_compute. reflexivity.
Defined.

(* ================================================================== *)
(** ** Trailing whitespace                                             *)
(* ================================================================== *)

Lemma rstrip_idempotent (s : string) : rstrip (rstrip s) = rstrip s.
Proof.
  induction s as [|c r IH]; simpl; [reflexivity|].
  destruct (rstrip r) as [|d r'] eqn:E.
  - destruct (isspace c) eqn:Ec; simpl; [reflexivity | rewrite Ec; reflexivity].
  - cbn [rstrip]. cbn [rstrip] in IH. rewrite IH. reflexivity.
Qed.

(** X16. No text of a parsed record ends with whitespace: the lines are
    stripped before they are stored, so every line a record holds, under a
    key or in the [ec] and [metacyc] sequences, is left unchanged by another
    stripping. *)
Theorem record_values_are_stripped
    (text : string) (rxn_acc : list dict) (rec : dict) (k : string) :
  parse_pl_lines (stripped_lines text) = Return rxn_acc ->
  In rec rxn_acc ->
  match dict_get rec k with
  | Some (PyStr v) => rstrip v = v
  | Some (PyList l) => Forall (fun v => rstrip v = v) l
  | None => True
  end.
Proof.
  intros Hparse Hrec.
  apply parse_pl_lines_return_inv in Hparse as (_ & _ & Hrecs).
  apply map_outcome_return in Hrecs.
  apply In_nth_error in Hrec as (i & Hi).
  destruct (Forall2_nth_error_right _ _ _ i rec Hrecs Hi) as (body & Hbody & Hbuild).
  assert (Hstripped : forall v, In v body -> rstrip v = v).
  { intros v Hv.
    destruct (split_blocks_spec (stripped_lines text)) as (Hl & _ & _).
    assert (Hin : In v (stripped_lines text)).
    { rewrite Hl. apply in_or_app. left. unfold pf_lines_of. apply in_flat_map.
      exists body. split; [eapply nth_error_In; exact Hbody|].
      apply in_or_app. left. exact Hv. }
    unfold stripped_lines in Hin. apply in_map_iff in Hin as (raw & <- & _).
    apply rstrip_idempotent. }
  destruct (build_record_values (fun v => In v body) body temp_rxn_init rec) as (Hs & Hl).
  - intros line Hin. exact Hin.
  - intros k0 v Hk. exfalso. unfold temp_rxn_init in Hk. cbn [dict_get] in Hk.
    destruct (String.eqb "ec" k0); [discriminate|].
    destruct (String.eqb "metacyc" k0); discriminate.
  - intros k0 l Hk. unfold temp_rxn_init in Hk. cbn [dict_get] in Hk.
    destruct (String.eqb "ec" k0) eqn:E1.
    { apply String.eqb_eq in E1. injection Hk as <-. left. split; [auto | constructor]. }
    destruct (String.eqb "metacyc" k0) eqn:E2; [|discriminate].
    apply String.eqb_eq in E2. injection Hk as <-. right. split; [auto | constructor].
  - exact Hbuild.
  - destruct (dict_get rec k) as [[v|l]|] eqn:Ek; [| |exact I].
    + apply Hstripped. apply (Hs k v Ek).
    + destruct (Hl k l Ek) as [[_ Hall]|[_ Hall]]; revert Hall; apply Forall_impl;
        intros v [Hin _]; apply Hstripped; exact Hin.
Qed.

Lemma record_values_are_stripped_witness :
  rstrip (entry "NAME" "x") = entry "NAME" "x".
Proof.
  apply (record_values_are_stripped
           (text_of [(entry "NAME" "x" ++ "  ")%string; "//"])
           [[("ec", PyList []); ("metacyc", PyList []);
             ("NAME", PyStr (entry "NAME" "x"))]]
           [("ec", PyList []); ("metacyc", PyList []);
            ("NAME", PyStr (entry "NAME" "x"))] "NAME").
  - vm_compute. reflexivity.
  - left. reflexivity.
Defined.
